(** * fClient: the request dispatcher of the fAPI client

    A shallow embedding of [src/client.ts], [src/types.ts] and
    [src/errors.ts]: the constructor of [Client] (authorization header,
    base URL, timeout settings), the shared [request] routine (content
    type, notifications, rate-limit tracking, error classification,
    response decoding) and the two error classes.

    JavaScript objects used as dictionaries (response headers, the
    rate-limit state, request headers) are finite maps from strings to
    strings.  Numbers that the code only compares or stores (status
    codes, timeouts, reset times) are integers of [Z]; [NaN] is the
    missing value of an [option].  The HTTP transport ([detritus-rest])
    and the event emitter of Node are collaborators: the transport is a
    function handed to [request] and its responses say how [body()]
    and [json()] settle; listeners are functions that either return or
    throw, and observers are listeners given with what they leave of
    the objects they are handed. *)

From Stdlib Require Import ZArith Ascii String List Bool Lia DecimalString.
From stdpp Require Import base option gmap strings list fin_maps.

Local Open Scope Z_scope.

(** ** JavaScript primitives used by the client *)

Module Js.

(** [ToBoolean] on a string: only the empty string is falsy. *)
Definition truthy_string (s : string) : bool :=
  match s with
  | EmptyString => false
  | String _ _ => true
  end.

(** [ToBoolean] on a number: zero is falsy ([NaN] is not represented). *)
Definition truthy_number (n : Z) : bool := negb (n =? 0).

(** [ToBoolean] on an optional property ([undefined] is falsy). *)
Definition truthy {A} (t : A -> bool) (v : option A) : bool :=
  match v with
  | Some a => t a
  | None => false
  end.

(** [a || b] on strings. *)
Definition or_string (a : option string) (b : string) : string :=
  match a with
  | Some s => if truthy_string s then s else b
  | None => b
  end.

(** [String.prototype.startsWith]. *)
Fixpoint startsWith (s search : string) : bool :=
  match search, s with
  | EmptyString, _ => true
  | String _ _, EmptyString => false
  | String a search', String b s' =>
      if Ascii.eqb a b then startsWith s' search' else false
  end.

(** White space skipped by [parseInt] (the code units below 256 of
    [StrWhiteSpaceChar]: TAB, LF, VT, FF, CR, SP, NBSP). *)
Definition isStrWhiteSpace (c : ascii) : bool :=
  let n := Z.of_nat (nat_of_ascii c) in
  ((9 <=? n) && (n <=? 13)) || (n =? 32) || (n =? 160).

Fixpoint trimStart (s : string) : string :=
  match s with
  | String c s' => if isStrWhiteSpace c then trimStart s' else s
  | EmptyString => EmptyString
  end.

(** The value of a digit in radix up to 36. *)
Definition digitValue (c : ascii) : option Z :=
  let n := Z.of_nat (nat_of_ascii c) in
  if (48 <=? n) && (n <=? 57) then Some (n - 48)
  else if (97 <=? n) && (n <=? 122) then Some (n - 87)
  else if (65 <=? n) && (n <=? 90) then Some (n - 55)
  else None.

(** The longest prefix of radix-[R] digits, as a number; [None] when
    the prefix is empty. *)
Fixpoint digits (R : Z) (s : string) (acc : option Z) : option Z :=
  match s with
  | String c s' =>
      match digitValue c with
      | Some d =>
          if d <? R
          then digits R s' (Some (match acc with Some a => a * R + d | None => d end))
          else acc
      | None => acc
      end
  | EmptyString => acc
  end.

(** [parseInt(input)] without a radix argument.  [None] is [NaN]; an
    [undefined] argument is first converted to the string
    ["undefined"].  The result is the mathematical integer, which a
    JavaScript number holds exactly up to 2^53. *)
Definition parseInt (input : option string) : option Z :=
  let s := trimStart (match input with Some s => s | None => "undefined" end) in
  let '(sign, s1) :=
    match s with
    | String "-" r => (-1, r)
    | String "+" r => (1, r)
    | _ => (1, s)
    end in
  let '(R, s2) :=
    match s1 with
    | String "0" (String "x" r) => (16, r)
    | String "0" (String "X" r) => (16, r)
    | _ => (10, s1)
    end in
  Z.mul sign <$> digits R s2 None.

(** The characters 0 to 9. *)
Definition isDecimalDigit (c : ascii) : bool :=
  let n := Z.of_nat (nat_of_ascii c) in (48 <=? n) && (n <=? 57).

(** [isNaN(n) ? 0 : n]. *)
Definition nanToZero (n : option Z) : Z :=
  match n with
  | Some z => z
  | None => 0
  end.

End Js.

(** ** [types.ts] *)

Module HttpMethods.
Definition GET : string := "GET".
Definition POST : string := "POST".
End HttpMethods.

Module ReturnMethods.
Inductive t := JSON | BODY.
End ReturnMethods.

Module ReturnHeaders.
Definition RATELIMIT_RESET : string := "x-rate-limit-reset".
Definition RATELIMIT_LIMIT : string := "x-rate-limit-limit".
Definition RATELIMIT_REMAINING : string := "x-rate-limit-remaining".
Definition CONTENT_TYPE : string := "content-type".
End ReturnHeaders.

(** A dictionary of headers, and the rate-limit state, which the code
    keys by the header names themselves. *)
Abbreviation Headers := (gmap string string).
Abbreviation RatelimitState := (gmap string string).

(** Parsed JSON, as [res.json()] resolves it and as request bodies are
    given. *)
#[local] Set Warnings "-register-all".
Inductive JsonValue :=
| JNull
| JBool (b : bool)
| JNumber (n : Z)
| JString (s : string)
| JArray (items : list JsonValue)
| JObject (fields : list (string * JsonValue)).

(** What [await res.body()] resolves to.  The transport decodes the body
    by its content type: to a string or a [Buffer], which is given here
    by the string it converts to, or to the value of the JSON it holds
    ([null] for an empty body). *)
Inductive BodyData :=
| RawBody (content : string)
| DecodedBody (j : JsonValue).

(** How [await res.body()] settles: it resolves, or it is rejected (a
    JSON content type whose body does not parse), with the value
    thrown. *)
Inductive BodyOutcome :=
| BodyResolves (d : BodyData)
| BodyRejects (v : string).

(** [ToString] on a number that is an integer (decimal digits, for the
    integers below 10^21 in absolute value). *)
Definition numberToString (n : Z) : string := NilZero.string_of_int (Z.to_int n).

(** [ToString] on the value of a JSON: an array is its elements joined
    by commas, [null] among them giving the empty string, and an object
    is ["[object Object]"]. *)
Fixpoint jsonToString (j : JsonValue) : string :=
  match j with
  | JNull => "null"
  | JBool b => if b then "true" else "false"
  | JNumber n => numberToString n
  | JString s => s
  | JArray items =>
      let element (x : JsonValue) : string :=
        match x with
        | JNull => ""
        | _ => jsonToString x
        end in
      (fix join (l : list JsonValue) : string :=
         match l with
         | [] => ""
         | [x] => element x
         | x :: l' => element x +:+ "," +:+ join l'
         end) items
  | JObject _ => "[object Object]"
  end.

(** [ToString] on what [body()] resolved to, as the constructor of
    [Error] applies it to its message. *)
Definition ToString (d : BodyData) : string :=
  match d with
  | RawBody content => content
  | DecodedBody j => jsonToString j
  end.

Module RequestTypes.
(** [RequestTypes.Request]: the options of the transport that the
    dispatcher reads, with the three fields the client adds.  Every
    field is optional in the source. *)
Record Request := {
  method : option string;
  path : string;
  body : option JsonValue;
  headers : option Headers;
  returnType : option ReturnMethods.t;
  contentType : option string;
  returnHeaders : option bool
}.
End RequestTypes.
Import RequestTypes.

(** The response of the transport: status, headers, how [body()]
    settles, what [json()] resolves to ([None] when parsing throws)
    and the request it answers. *)
Record FapiResponse := {
  statusCode : Z;
  res_headers : Headers;
  res_body : BodyOutcome;
  res_json : option JsonValue;
  res_request : Request
}.

(** ** [errors.ts] *)

Definition ratelimitStatusCode : Z := 429.

(** [STATUS_CODES[429]] of Node's [http] module. *)
Definition STATUS_CODES_429 : string := "Too Many Requests".

Record FapiError := {
  message : string;
  err_statusCode : Z;
  err_request : Request
}.

Definition new_FapiError (message : string) (statusCode : Z) (request : Request)
  : FapiError :=
  {| message := message; err_statusCode := statusCode; err_request := request |}.

(** [RatelimitError extends FapiError]. *)
Record RatelimitError := {
  super : FapiError;
  ratelimitReset : Z
}.

Definition new_RatelimitError (ratelimitReset : Z) (request : Request)
  : RatelimitError :=
  {| super := new_FapiError STATUS_CODES_429 ratelimitStatusCode request;
     ratelimitReset := ratelimitReset |}.

(** ** Notifications ([EventEmitter]) *)

Module RequestEvents.
Inductive Events := ratelimit | request | response.

(** The object handed to the listeners of each event. *)
Inductive EventsPayload :=
| Request (request : RequestTypes.Request)
| Response (response : FapiResponse)
| Ratelimit (request : RequestTypes.Request) (response : FapiResponse)
            (ratelimitReset : Z).
End RequestEvents.

(** A listener is called with the payload; it returns ([None]) or throws
    a value ([Some v]).  Listeners that write to the objects of the
    payload are the observers of [requestWith] below. *)
Definition Listener := RequestEvents.EventsPayload -> option string.

(** What a call of [request] can be rejected with. *)
Inductive Thrown :=
| ThrownFapiError (e : FapiError)
| ThrownRatelimitError (e : RatelimitError)
| ThrownByListener (v : string)
| ThrownByTransport (v : string).

(** [instanceof FapiError]: a [RatelimitError] is one too. *)
Definition instanceof_FapiError (t : Thrown) : bool :=
  match t with
  | ThrownFapiError _ | ThrownRatelimitError _ => true
  | _ => false
  end.

Definition instanceof_RatelimitError (t : Thrown) : bool :=
  match t with
  | ThrownRatelimitError _ => true
  | _ => false
  end.

(** The listeners of [EventEmitter.emit] run one after the other in the
    order of registration; the first one that throws ends the
    notification and its value goes to the caller of [emit]. *)
Fixpoint callListeners (ls : list Listener) (payload : RequestEvents.EventsPayload)
  : option string :=
  match ls with
  | [] => None
  | l :: ls' =>
      match l payload with
      | Some v => Some v
      | None => callListeners ls' payload
      end
  end.

(** ** The client *)

(** [RequestSettings] of the transport, of which the client uses the
    timeout. *)
Record RequestSettings := { settings_timeout : option Z }.

(** Where the settings object of a transport client lives: the constant
    [defaultSettings] of the module [client.ts], or an object of its
    own. *)
Inductive SettingsRef := DefaultSettingsObject | OwnSettingsObject (i : nat).

(** The objects of the process that outlive one constructor call. *)
Record Process := {
  defaultSettings : RequestSettings;
  ownSettings : list RequestSettings
}.

(** [const defaultSettings = { timeout: 15000 }] when the module is
    loaded. *)
Definition initialProcess : Process :=
  {| defaultSettings := {| settings_timeout := Some 15000 |};
     ownSettings := [] |}.

(** What the source takes from files that are not part of it:
    [Api.Base] of [endpoints.ts], the user agent built from
    [package.json] and [os], and whether the constructor of the
    transport keeps the settings object it is given or copies it. *)
Record Environment := {
  Api_Base : string;
  userAgent : string;
  restClientCopiesSettings : bool
}.

Record ClientOptions := {
  opt_baseUrl : option string;
  opt_auth : option string;
  opt_timeout : option Z
}.

Record RestClient := {
  rest_headers : Headers;
  rest_settings : SettingsRef;
  rest_baseUrl : string
}.

Record Client := {
  auth : string;
  baseUrl : string;
  ratelimitState : RatelimitState;
  restClient : RestClient;
  listeners : RequestEvents.Events -> list Listener
}.

Definition readSettings (p : Process) (r : SettingsRef) : RequestSettings :=
  match r with
  | DefaultSettingsObject => defaultSettings p
  | OwnSettingsObject i =>
      match ownSettings p !! i with
      | Some s => s
      | None => {| settings_timeout := None |}
      end
  end.

Definition writeTimeout (p : Process) (r : SettingsRef) (value : Z) : Process :=
  match r with
  | DefaultSettingsObject =>
      {| defaultSettings := {| settings_timeout := Some value |};
         ownSettings := ownSettings p |}
  | OwnSettingsObject i =>
      {| defaultSettings := defaultSettings p;
         ownSettings := <[i := {| settings_timeout := Some value |}]> (ownSettings p) |}
  end.

(** The first lines of the constructor: the value of [this.auth]. *)
Definition constructor_auth (options_auth : option string) : string :=
  match options_auth with
  | Some a =>
      if Js.truthy_string a && negb (Js.startsWith a "Bearer") then "Bearer " +:+ a
      else if Js.truthy_string a && Js.startsWith a "Bearer" then a
      else ""
  | None => ""
  end.

(** [new RestClient({ headers, settings, baseUrl })]. *)
Definition new_RestClient (env : Environment) (headers : Headers)
    (settings : SettingsRef) (baseUrl : string) (p : Process)
  : RestClient * Process :=
  if restClientCopiesSettings env then
    ({| rest_headers := headers;
        rest_settings := OwnSettingsObject (length (ownSettings p));
        rest_baseUrl := baseUrl |},
     {| defaultSettings := defaultSettings p;
        ownSettings := ownSettings p ++ [readSettings p settings] |})
  else
    ({| rest_headers := headers; rest_settings := settings; rest_baseUrl := baseUrl |},
     p).

(** [new Client(options)].  [settings] is the object [defaultSettings]
    itself, so the assignment to [settings.timeout] writes to it. *)
Definition new_Client (env : Environment) (options : ClientOptions) (p : Process)
  : Client * Process :=
  let auth := constructor_auth (opt_auth options) in
  let baseUrl := Js.or_string (opt_baseUrl options) (Api_Base env) in
  let settings := DefaultSettingsObject in
  let p1 :=
    match opt_timeout options with
    | Some t => if Js.truthy_number t then writeTimeout p settings t else p
    | None => p
    end in
  let '(rc, p2) :=
    new_RestClient env
      (<["user-agent" := userAgent env]> (<["Authorization" := auth]> ∅))
      settings baseUrl p1 in
  ({| auth := auth; baseUrl := baseUrl; ratelimitState := ∅;
      restClient := rc; listeners := fun _ => [] |},
   p2).

(** [get ratelimits ()]. *)
Definition ratelimits (c : Client) : RatelimitState := ratelimitState c.

(** [get timeout ()] and [set timeout (value)]. *)
Definition get_timeout (p : Process) (c : Client) : option Z :=
  settings_timeout (readSettings p (rest_settings (restClient c))).

Definition set_timeout (c : Client) (value : Z) (p : Process) : Process :=
  writeTimeout p (rest_settings (restClient c)) value.

(** The Authorization header that the transport client sends. *)
Definition authorizationHeader (c : Client) : option string :=
  rest_headers (restClient c) !! "Authorization".

(** [on (event, listener)]: the listener is added after the ones
    already registered for the event. *)
Definition on (event : RequestEvents.Events) (listener : Listener) (c : Client) : Client :=
  {| auth := auth c; baseUrl := baseUrl c; ratelimitState := ratelimitState c;
     restClient := restClient c;
     listeners := fun e =>
       match e, event with
       | RequestEvents.ratelimit, RequestEvents.ratelimit
       | RequestEvents.request, RequestEvents.request
       | RequestEvents.response, RequestEvents.response =>
           listeners c e ++ [listener]
       | _, _ => listeners c e
       end |}.

(** ** The dispatcher *)

(** What an observer of one call sees, in order: the notifications and
    the hand-over of the request to the transport. *)
Inductive Step :=
| Emitted (event : RequestEvents.Events) (payload : RequestEvents.EventsPayload)
| Sent (options : Request).

(** How an [async] computation ends: it resolves or it is rejected. *)
Inductive Completion (A : Type) :=
| Return (a : A)
| Throw (t : Thrown).
Arguments Return {A} a.
Arguments Throw {A} t.

(** A run of a computation on a client: its completion, the client
    after it and the steps it made. *)
Record Run (A : Type) := {
  result : Completion A;
  final : Client;
  trace : list Step
}.
Arguments result {A} r.
Arguments final {A} r.
Arguments trace {A} r.

(** Computations of the dispatcher: they read and write the client, may
    throw, and leave a trace. *)
Definition M (A : Type) : Type := Client -> Run A.

#[global] Instance M_ret : MRet M := fun A a c =>
  {| result := Return a; final := c; trace := [] |}.

#[global] Instance M_bind : MBind M := fun A B f m c =>
  let r := m c in
  match result r with
  | Return a =>
      let r' := f a (final r) in
      {| result := result r'; final := final r'; trace := trace r ++ trace r' |}
  | Throw t => {| result := Throw t; final := final r; trace := trace r |}
  end.

Definition throw {A} (t : Thrown) : M A := fun c =>
  {| result := Throw t; final := c; trace := [] |}.

(** [try { m } catch { handler }]. *)
Definition tryCatch {A} (m : M A) (handler : M A) : M A := fun c =>
  let r := m c in
  match result r with
  | Return _ => r
  | Throw _ =>
      let r' := handler (final r) in
      {| result := result r'; final := final r'; trace := trace r ++ trace r' |}
  end.

(** [this.emit(event, payload)]. *)
Definition emit (event : RequestEvents.Events) (payload : RequestEvents.EventsPayload)
  : M unit := fun c =>
  {| result :=
       match callListeners (listeners c event) payload with
       | Some v => Throw (ThrownByListener v)
       | None => Return tt
       end;
     final := c;
     trace := [Emitted event payload] |}.

(** The transport: what [restClient.request(options)] settles to. *)
Definition Transport := Request -> Completion FapiResponse.

Definition restClient_request (net : Transport) (options : Request)
  : M FapiResponse := fun c =>
  {| result := net options; final := c; trace := [Sent options] |}.

(** The client with another rate-limit state. *)
Definition withRatelimitState (c : Client) (st : RatelimitState) : Client :=
  {| auth := auth c; baseUrl := baseUrl c; ratelimitState := st;
     restClient := restClient c; listeners := listeners c |}.

(** [this.ratelimitState[headerKey] = value]. *)
Definition setRatelimitState (headerKey value : string) : M unit := fun c =>
  {| result := Return tt;
     final := withRatelimitState c (<[headerKey := value]> (ratelimitState c));
     trace := [] |}.

(** [for (const x of l) body]. *)
Fixpoint forOf {A} (l : list A) (body : A -> M unit) : M unit :=
  match l with
  | [] => mret tt
  | x :: l' => body x ;; forOf l' body
  end.

(** [await res.body()] and [await res.json()]. *)
Definition body_of (res : FapiResponse) : M BodyData :=
  match res_body res with
  | BodyResolves d => mret d
  | BodyRejects v => throw (ThrownByTransport v)
  end.

Definition json_of (res : FapiResponse) : M JsonValue :=
  match res_json res with
  | Some j => mret j
  | None => throw (ThrownByTransport "SyntaxError")
  end.

(** The values [request] resolves to. *)
Inductive ReturnValue :=
| Undefined
| BodyValue (b : BodyData)
| JsonResult (j : JsonValue)
| WholeResponse (res : FapiResponse)
| BodyAndHeaders (body : ReturnValue) (headers : Headers).

(** The first statement of [request]: the content type is written into
    the headers object of the options, which are then the options that
    the listeners and the transport see. *)
Definition setContentType (options : Request) : Request :=
  match headers options with
  | Some h =>
      if negb (bool_decide (method options = Some HttpMethods.GET)) then
        {| method := method options; path := path options; body := body options;
           headers :=
             Some (<[ReturnHeaders.CONTENT_TYPE :=
                       Js.or_string (contentType options) "application/json"]> h);
           returnType := returnType options;
           contentType := contentType options;
           returnHeaders := returnHeaders options |}
      else options
  | None => options
  end.

Definition ratelimitHeaders : list string :=
  [ReturnHeaders.RATELIMIT_LIMIT; ReturnHeaders.RATELIMIT_REMAINING;
   ReturnHeaders.RATELIMIT_RESET].

(** [Client.request]. *)
Definition request (net : Transport) (options : Request) : M ReturnValue :=
  let options := setContentType options in
  emit RequestEvents.request (RequestEvents.Request options) ;;
  res ← restClient_request net options;
  let headers := res_headers res in
  forOf ratelimitHeaders (fun headerKey =>
    match headers !! headerKey with
    | Some v => if Js.truthy_string v then setRatelimitState headerKey v else mret tt
    | None => mret tt
    end) ;;
  (if statusCode res =? 429 then
     let ratelimitReset :=
       Js.nanToZero (Js.parseInt (res_headers res !! ReturnHeaders.RATELIMIT_RESET)) in
     emit RequestEvents.ratelimit (RequestEvents.Ratelimit options res ratelimitReset) ;;
     throw (ThrownRatelimitError (new_RatelimitError ratelimitReset (res_request res)))
   else mret tt) ;;
  emit RequestEvents.response (RequestEvents.Response res) ;;
  (if negb (statusCode res =? 200) then
     body ← body_of res;
     (* [super(message)] converts the message to a string *)
     throw (ThrownFapiError
              (new_FapiError (ToString body) (statusCode res) (res_request res)))
   else mret tt) ;;
  returnValue ←
    match returnType options with
    | Some ReturnMethods.BODY =>
        b ← body_of res; mret (BodyValue b)
    | Some ReturnMethods.JSON =>
        (* [json] and [returnValue] after the try statement *)
        '(json, _) ←
          tryCatch (j ← json_of res; mret (JsonResult j, Undefined))
                   (b ← body_of res; mret (Undefined, BodyValue b));
        mret json
    | None => mret (WholeResponse res)
    end;
  mret (if Js.truthy id (returnHeaders options)
        then BodyAndHeaders returnValue (res_headers res)
        else returnValue).

(** [fetchImage], the shape of the image endpoints. *)
Definition fetchImage (net : Transport) (endpoint : string) (body : JsonValue)
  : M ReturnValue :=
  let endpoint := if Js.startsWith endpoint "/" then endpoint else "/" +:+ endpoint in
  request net
    {| method := Some HttpMethods.POST; path := endpoint; body := Some body;
       headers := None; returnType := Some ReturnMethods.BODY;
       contentType := None; returnHeaders := None |}.

(** Calls made one after the other on the same client; a caller that
    catches the rejection of one call goes on with the next. *)
Definition requests (calls : list (Transport * Request)) (c : Client) : Client :=
  foldl (fun c call => final (request call.1 call.2 c)) c calls.

(** ** Notions used by the statements *)

(** No listener registered on the client throws, whatever it is
    notified of. *)
Definition no_listener_throws (c : Client) : Prop :=
  forall event payload, callListeners (listeners c event) payload = None.


(** What one pass of the loop over [ratelimitHeaders] does to the state
    for one header name, and the whole loop. *)
Definition trackHeader (h : Headers) (st : RatelimitState) (headerKey : string)
  : RatelimitState :=
  match h !! headerKey with
  | Some v => if Js.truthy_string v then <[headerKey := v]> st else st
  | None => st
  end.

Definition trackHeaders (h : Headers) (st : RatelimitState) : RatelimitState :=
  foldl (trackHeader h) st ratelimitHeaders.

(** A header "carries a value" when the loop's test [if (headers[key])]
    passes: the header is there and its value is not the empty string. *)
Definition carries (h : Headers) (headerKey v : string) : Prop :=
  h !! headerKey = Some v /\ v <> "".

(** The steps of a run that hand a request to the transport. *)
Definition sentOptions {A} (r : Run A) : list Request :=
  omap (fun s => match s with Sent o => Some o | Emitted _ _ => None end) (trace r).

(** The rate-limit state after a list of responses went through the
    loop, one after the other. *)
Definition trackResponses (rs : list FapiResponse) (st : RatelimitState)
  : RatelimitState :=
  foldl (fun st r => trackHeaders (res_headers r) st) st rs.

(** The call [call] on the client [c] was handed to the transport (no
    listener of [request] threw) and the transport resolved it to
    [res]. *)
Definition answered (c : Client) (call : Transport * Request) (res : FapiResponse)
  : Prop :=
  callListeners (listeners c RequestEvents.request)
    (RequestEvents.Request (setContentType call.2)) = None
  /\ call.1 (setContentType call.2) = Return res.

(** A run with more steps before it. *)
Definition after {A} (t : list Step) (r : Run A) : Run A :=
  {| result := result r; final := final r; trace := t ++ trace r |}.

(** The value with the headers of the response, when [returnHeaders] is
    set. *)
Definition withHeaders (options : Request) (res : FapiResponse) (v : ReturnValue)
  : ReturnValue :=
  if Js.truthy id (returnHeaders options)
  then BodyAndHeaders v (res_headers res) else v.

(** What a call settles to once the notification of [response] is
    through: the error for a status other than 200, the decoded value
    for status 200. *)
Definition settles (options : Request) (res : FapiResponse) : Completion ReturnValue :=
  if statusCode res =? 200 then
    match returnType options with
    | Some ReturnMethods.BODY =>
        match res_body res with
        | BodyResolves d => Return (withHeaders options res (BodyValue d))
        | BodyRejects v => Throw (ThrownByTransport v)
        end
    | Some ReturnMethods.JSON =>
        match res_json res with
        | Some j => Return (withHeaders options res (JsonResult j))
        | None =>
            match res_body res with
            | BodyResolves _ => Return (withHeaders options res Undefined)
            | BodyRejects v => Throw (ThrownByTransport v)
            end
        end
    | None => Return (withHeaders options res (WholeResponse res))
    end
  else
    match res_body res with
    | BodyResolves d =>
        Throw (ThrownFapiError
                 (new_FapiError (ToString d) (statusCode res) (res_request res)))
    | BodyRejects v => Throw (ThrownByTransport v)
    end.

(** ** Sample clients, requests and responses *)

Module Sample.

Definition env : Environment :=
  {| Api_Base := "https://fapi.dreadful.tech";
     userAgent := "fAPIClient";
     restClientCopiesSettings := false |}.

(** [new Client({ auth, timeout })] *)
Definition options (auth : option string) (timeout : option Z) : ClientOptions :=
  {| opt_baseUrl := None; opt_auth := auth; opt_timeout := timeout |}.

(** [new Client({ auth: 'key1' })] in a process that made no client
    before. *)
Definition client : Client :=
  (new_Client env (options (Some "key1") None) initialProcess).1.

(** A GET of the path list, as [getPaths] asks for it. *)
Definition getPaths (returnType : option ReturnMethods.t) : Request :=
  {| method := Some HttpMethods.GET; path := "/pathlist"; body := None;
     headers := None; returnType := returnType; contentType := None;
     returnHeaders := None |}.

(** A response to [getPaths]. *)
Definition answer (status : Z) (h : Headers) (body : string)
    (json : option JsonValue) : FapiResponse :=
  {| statusCode := status; res_headers := h;
     res_body := BodyResolves (RawBody body);
     res_json := json; res_request := getPaths None |}.

(** A transport that answers every request with [res]. *)
Definition answering (res : FapiResponse) : Transport := fun _ => Return res.

(** The responses of the scenarios: rate limited with a reset time,
    a server failure, and a success whose body is not JSON. *)
Definition ratelimited : FapiResponse :=
  answer 429 (<[ReturnHeaders.RATELIMIT_RESET := "17"]> ∅) "slow down" None.
Definition failed : FapiResponse :=
  answer 500 ∅ "internal error" (Some (JString "internal error")).
Definition notJson : FapiResponse :=
  answer 200 (<[ReturnHeaders.RATELIMIT_REMAINING := "7"]> ∅) "<html>" None.
(** A response that has the remaining-quota header with no value. *)
Definition emptyRemaining : FapiResponse :=
  answer 200 (<[ReturnHeaders.RATELIMIT_REMAINING := ""]> ∅) "ok" None.
Definition withoutRemaining : FapiResponse :=
  answer 200 (<[ReturnHeaders.RATELIMIT_LIMIT := "60"]> ∅) "ok" None.

(** A POST with a body and a declared content type, without a headers
    object (the image endpoints have no headers object either). *)
Definition postText : Request :=
  {| method := Some HttpMethods.POST; path := "/parse_tags";
     body := Some (JString "{upper:x}"); headers := None;
     returnType := Some ReturnMethods.BODY;
     contentType := Some "text/plain"; returnHeaders := None |}.

(** The same with a headers object. *)
Definition postTextWithHeaders : Request :=
  {| method := Some HttpMethods.POST; path := "/parse_tags";
     body := Some (JString "{upper:x}"); headers := Some (<["accept" := "*/*"]> ∅);
     returnType := Some ReturnMethods.BODY;
     contentType := Some "text/plain"; returnHeaders := None |}.

(** Three calls in a row: the first two responses have no
    remaining-quota header, the third has one. *)
Definition threeCalls : list (Transport * Request) :=
  [(answering withoutRemaining, getPaths None);
   (answering failed, getPaths None);
   (answering notJson, getPaths (Some ReturnMethods.JSON))].

(** A listener that throws, and one that returns. *)
Definition thrower (v : string) : Listener := fun _ => Some v.
Definition logger : Listener := fun _ => None.

End Sample.

(** ** The endpoint methods *)

Module Api.
(** The paths of [Api.Routes] that the methods below use; their values
    are in [endpoints.ts], which is not among the sources. *)
Record Routes := {
  PATHLIST : string;
  FOURCHAN : string;
  COMPOSITE : string;
  DUCKDUCKGOIMAGES : string;
  IMAGESCRIPT : string
}.
End Api.

Module ContentTypes.
Definition PNG : string := "image/png".
Definition GIF : string := "image/gif".
End ContentTypes.

Module ImageTypes.
Inductive t := PNG | GIF.
End ImageTypes.

Definition IMAGESCRIPT_CPUTIME : string := "x-imagescript-cputime".
Definition IMAGESCRIPT_WALLTIME : string := "x-imagescript-walltime".
Definition IMAGESCRIPT_MEMORY : string := "x-imagescript-memory".

(** A POST of [body] to [endpoint] that asks for the raw body, as the
    methods that do not go through [fetchImage] build it. *)
Definition postOptions (endpoint : string) (body : JsonValue)
    (returnType : ReturnMethods.t) : Request :=
  {| method := Some HttpMethods.POST; path := endpoint; body := Some body;
     headers := None; returnType := Some returnType;
     contentType := None; returnHeaders := None |}.

(** [requestImageFromImage]: the body is [{ images: [image] }]. *)
Definition requestImageFromImage (net : Transport) (endpoint image : string)
  : M ReturnValue :=
  let body := JObject [("images", JArray [JString image])] in
  fetchImage net endpoint body.

(** [requestImageFromText]: the body is [{ args: { text } }]. *)
Definition requestImageFromText (net : Transport) (endpoint text : string)
  : M ReturnValue :=
  let body := JObject [("args", JObject [("text", JString text)])] in
  fetchImage net endpoint body.

(** [requestImageFromBoth]: the body is
    [{ images: [image], args: { text } }]. *)
Definition requestImageFromBoth (net : Transport) (endpoint image text : string)
  : M ReturnValue :=
  let body :=
    JObject [("images", JArray [JString image]);
             ("args", JObject [("text", JString text)])] in
  fetchImage net endpoint body.

(** [getPaths]. *)
Definition getPaths (routes : Api.Routes) (net : Transport) : M ReturnValue :=
  request net
    {| method := Some HttpMethods.GET; path := Api.PATHLIST routes; body := None;
       headers := None; returnType := Some ReturnMethods.JSON;
       contentType := None; returnHeaders := None |}.

(** [RequestTypes._4Chan]. *)
Record FourChanOptions := {
  board : option string;
  thread : option string
}.

(** The path that [fetch4ChanBoard] builds. *)
Definition fourChanPath (routes : Api.Routes) (options : FourChanOptions) : string :=
  let path := Api.FOURCHAN routes in
  match board options with
  | Some b =>
      if Js.truthy_string b then
        let path := path +:+ "/" +:+ b in
        match thread options with
        | Some t => if Js.truthy_string t then path +:+ "/" +:+ t else path
        | None => path
        end
      else path
  | None => path
  end.

(** [fetch4ChanBoard]. *)
Definition fetch4ChanBoard (routes : Api.Routes) (net : Transport)
    (options : FourChanOptions) : M ReturnValue :=
  request net
    {| method := Some HttpMethods.GET; path := fourChanPath routes options;
       body := None; headers := None; returnType := Some ReturnMethods.BODY;
       contentType := None; returnHeaders := None |}.

(** [composite]: the argument is one URL or an array of URLs;
    [Array.isArray(images) ? images : [images]]. *)
Definition composite (routes : Api.Routes) (net : Transport)
    (images : string + list string) : M ReturnValue :=
  let body :=
    JObject [("images",
              JArray (JString <$> match images with
                                  | inr l => l
                                  | inl s => [s]
                                  end))] in
  fetchImage net (Api.COMPOSITE routes) body.

(** [duckDuckGoImages]; [safe] is the optional [options.safe]. *)
Definition duckDuckGoImages (routes : Api.Routes) (net : Transport)
    (query : string) (safe : option bool) : M ReturnValue :=
  let safetyLevel : Z :=
    match safe with
    | None | Some true => 1
    | Some false => -2
    end in
  let body :=
    JObject [("args", JObject [("text", JString query);
                               ("safetyLevel", JNumber safetyLevel)])] in
  request net (postOptions (Api.DUCKDUCKGOIMAGES routes) body ReturnMethods.JSON).

(** [ReturnTypes.ImageScript]; the three measures are what [parseFloat]
    makes of the headers, numbers of a type [F] left open. *)
Record ImageScriptResult (F : Type) := {
  image : ReturnValue;
  format : ImageTypes.t;
  wallTime : F;
  cpuTime : F;
  memoryUsage : F
}.
Arguments image {F} _.
Arguments format {F} _.
Arguments wallTime {F} _.
Arguments cpuTime {F} _.
Arguments memoryUsage {F} _.

(** The [switch] of [imageScript] on the content type. *)
Definition imageTypeOf (contentType : option string) : ImageTypes.t :=
  match contentType with
  | Some ct =>
      if String.eqb ct ContentTypes.PNG then ImageTypes.PNG
      else if String.eqb ct ContentTypes.GIF then ImageTypes.GIF
      else ImageTypes.PNG
  | None => ImageTypes.PNG
  end.

(** [imageScript].  [parseFloat] is the function of JavaScript, on the
    value of a header or [undefined].  A property of the body whose
    value is [undefined] is not sent ([inject] when it is not given).
    With [returnHeaders] set, [request] resolves to a body with
    headers; reading [res.headers[...]] on anything else is a type
    error. *)
Definition imageScript {F : Type} (parseFloat : option string -> F)
    (routes : Api.Routes) (net : Transport)
    (script : string) (inject : option JsonValue) : M (ImageScriptResult F) :=
  let body :=
    JObject [("args",
              JObject (("text", JString script)
                       :: match inject with
                          | Some j => [("inject", j)]
                          | None => []
                          end))] in
  res ← request net
          {| method := Some HttpMethods.POST; path := Api.IMAGESCRIPT routes;
             body := Some body; headers := None;
             returnType := Some ReturnMethods.BODY;
             contentType := None; returnHeaders := Some true |};
  match res with
  | BodyAndHeaders b h =>
      let contentType := h !! ReturnHeaders.CONTENT_TYPE in
      let imageType := imageTypeOf contentType in
      mret {| image := b;
              format := imageType;
              wallTime := parseFloat (h !! IMAGESCRIPT_WALLTIME);
              cpuTime := parseFloat (h !! IMAGESCRIPT_CPUTIME);
              memoryUsage := parseFloat (h !! IMAGESCRIPT_MEMORY) |}
  | _ => throw (ThrownByTransport "TypeError")
  end.

(** ** Notions used by the further statements *)

(** The state holds only the three rate-limit headers, with values that
    are not the empty string. *)
Definition tracksOnlyRatelimitHeaders (st : RatelimitState) : Prop :=
  forall k v, st !! k = Some v -> k ∈ ratelimitHeaders /\ v <> "".

(** The steps of a run that notify of [event]. *)
Definition emittedEvents {A} (r : Run A) : list RequestEvents.Events :=
  omap (fun s => match s with Emitted e _ => Some e | Sent _ => None end) (trace r).

Module SampleEndpoints.

Definition routes : Api.Routes :=
  {| Api.PATHLIST := "/pathlist"; Api.FOURCHAN := "/4chan";
     Api.COMPOSITE := "/composite"; Api.DUCKDUCKGOIMAGES := "/duckduckgoimages";
     Api.IMAGESCRIPT := "/image_script" |}.

(** A response with an image, and one with a GIF whose content type has
    a parameter. *)
Definition png : FapiResponse :=
  Sample.answer 200 (<[ReturnHeaders.CONTENT_TYPE := "image/png"]> ∅) "PNG" None.
Definition gif : FapiResponse :=
  Sample.answer 200 (<[ReturnHeaders.CONTENT_TYPE := "image/gif"]> ∅) "GIF89a" None.
Definition json : FapiResponse :=
  Sample.answer 200 ∅ "[1]" (Some (JArray [JNumber 1])).

(** A transport that fails. *)
Definition unreachable : Transport := fun _ => Throw (ThrownByTransport "ECONNREFUSED").

(** A process in which two clients were made, and the two clients. *)
Definition twoClients (env : Environment) : (Client * Client) * Process :=
  let r1 := new_Client env (Sample.options None None) initialProcess in
  let r2 := new_Client env (Sample.options None None) r1.2 in
  ((r1.1, r2.1), r2.2).

Definition copyingEnv : Environment :=
  {| Api_Base := "https://fapi.dreadful.tech"; userAgent := "fAPIClient";
     restClientCopiesSettings := true |}.

End SampleEndpoints.

(** ** Listeners that write to what they are handed *)

(** The payloads hold the options and the response by reference, so a
    listener that returns may have written to them before [request]
    goes on with them.  An observer is a listener given with what it
    leaves: it throws, or it returns and leaves the objects it was
    handed in some state. *)
Inductive Observed (A : Type) :=
| Threw (v : string)
| Leaves (a : A).
Arguments Threw {A} v.
Arguments Leaves {A} a.

(** The observers of the three events: of [request], handed the
    options; of [ratelimit], handed the options, the response and the
    reset time; of [response], handed the response. *)
Record Observers := {
  onRequest : list (Request -> Observed Request);
  onRatelimit : list (Z -> Request * FapiResponse -> Observed (Request * FapiResponse));
  onResponse : list (FapiResponse -> Observed FapiResponse)
}.

Definition noObservers : Observers :=
  {| onRequest := []; onRatelimit := []; onResponse := [] |}.

(** The observers are called in turn, each with the objects as the one
    before left them; the first that throws ends the notification. *)
Fixpoint notify {A} (ls : list (A -> Observed A)) (a : A) : Observed A :=
  match ls with
  | [] => Leaves a
  | l :: ls' =>
      match l a with
      | Threw v => Threw v
      | Leaves a' => notify ls' a'
      end
  end.

(** [this.emit(event, payload)] with observers. *)
Definition emitWith {A} (event : RequestEvents.Events)
    (payload : RequestEvents.EventsPayload) (ls : list (A -> Observed A)) (a : A)
  : M A := fun c =>
  {| result :=
       match notify ls a with
       | Threw v => Throw (ThrownByListener v)
       | Leaves a' => Return a'
       end;
     final := c;
     trace := [Emitted event payload] |}.

(** [Client.request] with observers in the place of the listeners of
    the client: after each notification it goes on with the options and
    the response as the observers left them. *)
Definition requestWith (obs : Observers) (net : Transport) (options : Request)
  : M ReturnValue :=
  let options := setContentType options in
  options ← emitWith RequestEvents.request (RequestEvents.Request options)
              (onRequest obs) options;
  res ← restClient_request net options;
  let headers := res_headers res in
  forOf ratelimitHeaders (fun headerKey =>
    match headers !! headerKey with
    | Some v => if Js.truthy_string v then setRatelimitState headerKey v else mret tt
    | None => mret tt
    end) ;;
  (if statusCode res =? 429 then
     let ratelimitReset :=
       Js.nanToZero (Js.parseInt (res_headers res !! ReturnHeaders.RATELIMIT_RESET)) in
     seen ← emitWith RequestEvents.ratelimit
              (RequestEvents.Ratelimit options res ratelimitReset)
              ((fun l => l ratelimitReset) <$> onRatelimit obs) (options, res);
     throw (ThrownRatelimitError (new_RatelimitError ratelimitReset (res_request seen.2)))
   else mret tt) ;;
  res ← emitWith RequestEvents.response (RequestEvents.Response res)
          (onResponse obs) res;
  (if negb (statusCode res =? 200) then
     body ← body_of res;
     throw (ThrownFapiError
              (new_FapiError (ToString body) (statusCode res) (res_request res)))
   else mret tt) ;;
  returnValue ←
    match returnType options with
    | Some ReturnMethods.BODY =>
        b ← body_of res; mret (BodyValue b)
    | Some ReturnMethods.JSON =>
        '(json, _) ←
          tryCatch (j ← json_of res; mret (JsonResult j, Undefined))
                   (b ← body_of res; mret (Undefined, BodyValue b));
        mret json
    | None => mret (WholeResponse res)
    end;
  mret (if Js.truthy id (returnHeaders options)
        then BodyAndHeaders returnValue (res_headers res)
        else returnValue).

(** The listeners of a client as observers: they leave what they are
    handed as it was. *)
Definition observersOf (c : Client) : Observers :=
  {| onRequest :=
       (fun (l : Listener) o =>
          match l (RequestEvents.Request o) with
          | Some v => Threw v
          | None => Leaves o
          end) <$> listeners c RequestEvents.request;
     onRatelimit :=
       (fun (l : Listener) reset (p : Request * FapiResponse) =>
          match l (RequestEvents.Ratelimit p.1 p.2 reset) with
          | Some v => Threw v
          | None => Leaves p
          end) <$> listeners c RequestEvents.ratelimit;
     onResponse :=
       (fun (l : Listener) res =>
          match l (RequestEvents.Response res) with
          | Some v => Threw v
          | None => Leaves res
          end) <$> listeners c RequestEvents.response |}.


Module SampleObservers.

(** An observer of [request] that returns after it asked for JSON in
    the options it was handed, one that only reads them, and observers
    that throw. *)
Definition asksForJson : Request -> Observed Request := fun o =>
  Leaves {| method := method o; path := path o; body := body o;
            headers := headers o; returnType := Some ReturnMethods.JSON;
            contentType := contentType o; returnHeaders := returnHeaders o |}.


End SampleObservers.

Module SampleBodies.


(** A success announced as JSON whose body does not parse. *)
Definition brokenJson : FapiResponse :=
  {| statusCode := 200;
     res_headers := <[ReturnHeaders.CONTENT_TYPE := "application/json"]> ∅;
     res_body := BodyRejects "SyntaxError";
     res_json := None;
     res_request := Sample.getPaths None |}.

End SampleBodies.

(** ** The runs of [request] *)

Lemma withRatelimitState_same c : withRatelimitState c (ratelimitState c) = c.
Proof. by destruct c. Qed.

Lemma bind_Return {A B} (m : M A) (f : A -> M B) c a c' t :
  m c = {| result := Return a; final := c'; trace := t |} ->
  (m ≫= f) c = after t (f a c').
Proof. intros H. unfold mbind, M_bind. by rewrite H. Qed.

Lemma bind_Throw {A B} (m : M A) (f : A -> M B) c v c' t :
  m c = {| result := Throw v; final := c'; trace := t |} ->
  (m ≫= f) c = {| result := Throw v; final := c'; trace := t |}.
Proof. intros H. unfold mbind, M_bind. by rewrite H. Qed.

Lemma emit_returns event payload c :
  callListeners (listeners c event) payload = None ->
  emit event payload c
  = {| result := Return tt; final := c; trace := [Emitted event payload] |}.
Proof. intros H. unfold emit. by rewrite H. Qed.

Lemma emit_throws event payload c v :
  callListeners (listeners c event) payload = Some v ->
  emit event payload c
  = {| result := Throw (ThrownByListener v); final := c;
       trace := [Emitted event payload] |}.
Proof. intros H. unfold emit. by rewrite H. Qed.

Lemma forOf_track (h : Headers) (l : list string) (c : Client) :
  forOf l (fun headerKey =>
    match h !! headerKey with
    | Some v => if Js.truthy_string v then setRatelimitState headerKey v else mret tt
    | None => mret tt
    end) c
  = {| result := Return tt;
       final := withRatelimitState c (foldl (trackHeader h) (ratelimitState c) l);
       trace := [] |}.
Proof.
  revert c. induction l as [|k l IH]; intros c.
  - cbn [forOf foldl]. rewrite withRatelimitState_same. reflexivity.
  - cbn [forOf foldl].
    erewrite bind_Return; cycle 1.
    { instantiate (1 := []).
      instantiate (1 := withRatelimitState c (trackHeader h (ratelimitState c) k)).
      instantiate (1 := tt).
      unfold trackHeader. destruct (h !! k) as [v|]; [destruct (Js.truthy_string v)|];
        try reflexivity; unfold mret, M_ret; by rewrite withRatelimitState_same. }
    rewrite IH. reflexivity.
Qed.

Lemma setContentType_returnType options :
  returnType (setContentType options) = returnType options.
Proof.
  unfold setContentType. destruct (headers options); [|reflexivity].
  by destruct (negb _).
Qed.

Lemma setContentType_returnHeaders options :
  returnHeaders (setContentType options) = returnHeaders options.
Proof.
  unfold setContentType. destruct (headers options); [|reflexivity].
  by destruct (negb _).
Qed.

(** The statements of [request] from the test of the status 200 on:
    they settle as [settles] says, leave the client and make no
    step. *)
Lemma tail_settles options res c :
  ((if negb (statusCode res =? 200) then
      body ← body_of res;
      throw (ThrownFapiError
               (new_FapiError (ToString body) (statusCode res) (res_request res)))
    else mret tt) ;;
   returnValue ←
     match returnType options with
     | Some ReturnMethods.BODY =>
         b ← body_of res; mret (BodyValue b)
     | Some ReturnMethods.JSON =>
         '(json, _) ←
           tryCatch (j ← json_of res; mret (JsonResult j, Undefined))
                    (b ← body_of res; mret (Undefined, BodyValue b));
         mret json
     | None => mret (WholeResponse res)
     end;
   mret (if Js.truthy id (returnHeaders options)
         then BodyAndHeaders returnValue (res_headers res)
         else returnValue)) c
  = {| result := settles options res; final := c; trace := [] |}.
Proof.
  unfold settles, withHeaders, body_of, json_of.
  destruct (statusCode res =? 200), (res_body res), (returnType options) as [[]|],
    (res_json res); reflexivity.
Qed.

Lemma request_listener_throws net options c v :
  callListeners (listeners c RequestEvents.request)
    (RequestEvents.Request (setContentType options)) = Some v ->
  request net options c
  = {| result := Throw (ThrownByListener v); final := c;
       trace := [Emitted RequestEvents.request
                   (RequestEvents.Request (setContentType options))] |}.
Proof.
  intros Hq. unfold request. cbv zeta.
  by rewrite (bind_Throw _ _ _ _ _ _ (emit_throws _ _ _ _ Hq)).
Qed.

Lemma restClient_request_run net options c :
  restClient_request net options c
  = {| result := net options; final := c; trace := [Sent options] |}.
Proof. reflexivity. Qed.

Lemma request_rejected net options c t :
  callListeners (listeners c RequestEvents.request)
    (RequestEvents.Request (setContentType options)) = None ->
  net (setContentType options) = Throw t ->
  request net options c
  = {| result := Throw t; final := c;
       trace := [Emitted RequestEvents.request
                   (RequestEvents.Request (setContentType options));
                 Sent (setContentType options)] |}.
Proof.
  intros Hq Hn. unfold request. cbv zeta.
  rewrite (bind_Return _ _ _ _ _ _ (emit_returns _ _ _ Hq)).
  erewrite bind_Throw; [reflexivity|].
  rewrite restClient_request_run, Hn. reflexivity.
Qed.

Lemma request_429 net options c res :
  callListeners (listeners c RequestEvents.request)
    (RequestEvents.Request (setContentType options)) = None ->
  net (setContentType options) = Return res ->
  statusCode res = 429 ->
  let reset :=
    Js.nanToZero (Js.parseInt (res_headers res !! ReturnHeaders.RATELIMIT_RESET)) in
  let payload := RequestEvents.Ratelimit (setContentType options) res reset in
  request net options c
  = {| result :=
         match callListeners (listeners c RequestEvents.ratelimit) payload with
         | Some v => Throw (ThrownByListener v)
         | None => Throw (ThrownRatelimitError (new_RatelimitError reset (res_request res)))
         end;
       final := withRatelimitState c
                  (trackHeaders (res_headers res) (ratelimitState c));
       trace := [Emitted RequestEvents.request
                   (RequestEvents.Request (setContentType options));
                 Sent (setContentType options);
                 Emitted RequestEvents.ratelimit payload] |}.
Proof.
  intros Hq Hn Hs reset payload. unfold request. cbv zeta.
  rewrite (bind_Return _ _ _ _ _ _ (emit_returns _ _ _ Hq)).
  erewrite bind_Return; [|by rewrite restClient_request_run, Hn].
  erewrite bind_Return; [|apply forOf_track].
  rewrite Hs. cbn [Z.eqb Pos.eqb]. fold reset. fold payload.
  set (c' := withRatelimitState c _).
  destruct (callListeners (listeners c RequestEvents.ratelimit) payload) as [v|] eqn:Hl.
  - erewrite bind_Throw; [reflexivity|].
    erewrite bind_Throw; [reflexivity|]. by apply emit_throws.
  - erewrite bind_Throw; [reflexivity|].
    erewrite bind_Return; [|by apply emit_returns]. reflexivity.
Qed.

Lemma request_answered net options c res :
  callListeners (listeners c RequestEvents.request)
    (RequestEvents.Request (setContentType options)) = None ->
  net (setContentType options) = Return res ->
  statusCode res <> 429 ->
  request net options c
  = {| result :=
         match callListeners (listeners c RequestEvents.response)
                 (RequestEvents.Response res) with
         | Some v => Throw (ThrownByListener v)
         | None => settles options res
         end;
       final := withRatelimitState c
                  (trackHeaders (res_headers res) (ratelimitState c));
       trace := [Emitted RequestEvents.request
                   (RequestEvents.Request (setContentType options));
                 Sent (setContentType options);
                 Emitted RequestEvents.response (RequestEvents.Response res)] |}.
Proof.
  intros Hq Hn Hs. unfold request. cbv zeta.
  rewrite (bind_Return _ _ _ _ _ _ (emit_returns _ _ _ Hq)).
  erewrite bind_Return; [|by rewrite restClient_request_run, Hn].
  erewrite bind_Return; [|apply forOf_track].
  destruct (Z.eqb_spec (statusCode res) 429) as [|_]; [done|].
  erewrite bind_Return; [|reflexivity].
  set (c' := withRatelimitState c _).
  destruct (callListeners (listeners c RequestEvents.response)
              (RequestEvents.Response res)) as [v|] eqn:Hl.
  - erewrite bind_Throw; [reflexivity|]. by apply emit_throws.
  - erewrite bind_Return; [|by apply emit_returns].
    rewrite tail_settles. unfold settles, withHeaders.
    by rewrite setContentType_returnType, setContentType_returnHeaders.
Qed.

(** ** The loop over the rate-limit headers *)

Lemma trackHeader_lookup (h : Headers) (st : RatelimitState) (k k' : string) :
  trackHeader h st k !! k'
  = if decide (k = k') then
      match h !! k with
      | Some v => if Js.truthy_string v then Some v else st !! k'
      | None => st !! k'
      end
    else st !! k'.
Proof.
  unfold trackHeader.
  destruct (h !! k) as [v|]; [destruct (Js.truthy_string v)|];
    case_decide; subst; try reflexivity.
  - apply lookup_insert_eq.
  - by apply lookup_insert_ne.
Qed.

Lemma trackHeaders_lookup (h : Headers) (st : RatelimitState) (k : string) :
  k ∈ ratelimitHeaders ->
  trackHeaders h st !! k
  = match h !! k with
    | Some v => if Js.truthy_string v then Some v else st !! k
    | None => st !! k
    end.
Proof.
  intros Hk. unfold trackHeaders, ratelimitHeaders in *. cbn [foldl].
  rewrite !trackHeader_lookup.
  repeat (apply elem_of_cons in Hk as [->|Hk]);
    [ | | | by apply elem_of_nil in Hk ];
    repeat (case_decide; try discriminate; try congruence);
    destruct (h !! _) as [v|]; try reflexivity; by destruct (Js.truthy_string v).
Qed.

Lemma trackHeaders_lookup_other (h : Headers) (st : RatelimitState) (k : string) :
  k ∉ ratelimitHeaders ->
  trackHeaders h st !! k = st !! k.
Proof.
  intros Hk. unfold trackHeaders, ratelimitHeaders in *. cbn [foldl].
  rewrite !trackHeader_lookup.
  repeat case_decide; subst; try reflexivity; exfalso; apply Hk; set_solver.
Qed.

Lemma truthy_string_carries (h : Headers) (k v : string) :
  carries h k v <-> h !! k = Some v /\ Js.truthy_string v = true.
Proof.
  unfold carries. split; intros [Hl Hv]; (split; [done|]); by destruct v.
Qed.

Lemma trackHeaders_carried (h : Headers) (st : RatelimitState) (k v : string) :
  k ∈ ratelimitHeaders -> carries h k v -> trackHeaders h st !! k = Some v.
Proof.
  intros Hk [Hl Hv]%truthy_string_carries.
  by rewrite trackHeaders_lookup, Hl, Hv.
Qed.

Lemma trackHeaders_not_carried (h : Headers) (st : RatelimitState) (k : string) :
  (forall v, ~ carries h k v) -> trackHeaders h st !! k = st !! k.
Proof.
  intros Hn. destruct (decide (k ∈ ratelimitHeaders)) as [Hk|Hk];
    [|by apply trackHeaders_lookup_other].
  rewrite trackHeaders_lookup by done.
  destruct (h !! k) as [v|] eqn:Hl; [|reflexivity].
  destruct (Js.truthy_string v) eqn:Hv; [|reflexivity].
  exfalso. apply (Hn v). apply truthy_string_carries. done.
Qed.

(** ** The constructor: the Authorization header *)

Lemma authorizationHeader_new_Client env options p :
  authorizationHeader (new_Client env options p).1
  = Some (constructor_auth (opt_auth options)).
Proof.
  unfold authorizationHeader, new_Client, new_RestClient.
  destruct (restClientCopiesSettings env); cbn [fst restClient rest_headers];
    by rewrite lookup_insert_ne, lookup_insert_eq.
Qed.

Lemma startsWith_nonempty t : Js.startsWith t "Bearer" = true -> Js.truthy_string t = true.
Proof. by destruct t. Qed.

Lemma constructor_auth_prefixed t :
  Js.startsWith t "Bearer" = true -> constructor_auth (Some t) = t.
Proof.
  intros H. unfold constructor_auth.
  by rewrite H, (startsWith_nonempty t H).
Qed.

Lemma constructor_auth_bare t :
  t <> "" -> Js.startsWith t "Bearer" = false ->
  constructor_auth (Some t) = "Bearer " +:+ t.
Proof.
  intros Hne H. unfold constructor_auth. rewrite H.
  destruct t; [done|reflexivity].
Qed.

Lemma startsWith_substring (s search : string) :
  Js.startsWith s search = true <-> substring 0 (String.length search) s = search.
Proof.
  revert s. induction search as [|a search IH]; intros [|b s];
    cbn [Js.startsWith String.length substring]; try done.
  destruct (Ascii.eqb_spec a b) as [->|Hab].
  - rewrite IH. split; [by intros ->|congruence].
  - split; [done|congruence].
Qed.

(** C8: a token passed without the prefix ["Bearer"] is sent as
    ["Bearer "] followed by the token, and a token that already starts
    with the prefix is sent as it is. *)
Theorem authorization_bearer_prefix env options p t :
  opt_auth options = Some t ->
  t <> "" ->
  let c := (new_Client env options p).1 in
  (Js.startsWith t "Bearer" = false -> authorizationHeader c = Some ("Bearer " +:+ t))
  /\ (Js.startsWith t "Bearer" = true -> authorizationHeader c = Some t).
Proof.
  intros Ha Hne c. subst c. rewrite authorizationHeader_new_Client, Ha.
  split; intros H.
  - by rewrite constructor_auth_bare.
  - by rewrite constructor_auth_prefixed.
Qed.

Lemma authorization_bearer_prefix_witness :
  authorizationHeader
    (new_Client Sample.env (Sample.options (Some "abc123") None) initialProcess).1
  = Some "Bearer abc123"
  /\ authorizationHeader
       (new_Client Sample.env (Sample.options (Some "Bearer abc123") None)
          initialProcess).1
     = Some "Bearer abc123".
Proof.
  split.
  - apply (authorization_bearer_prefix Sample.env
             (Sample.options (Some "abc123") None) initialProcess "abc123");
      [reflexivity | discriminate | reflexivity].
  - apply (authorization_bearer_prefix Sample.env
             (Sample.options (Some "Bearer abc123") None) initialProcess
             "Bearer abc123");
      [reflexivity | discriminate | reflexivity].
Defined.

(** C10 (as stated, refuted): the empty string is an auth option that
    does not start with ["Bearer"], and it is not sent after
    ["Bearer "]: the header is the empty string. *)
Lemma empty_token_gets_no_prefix :
  ~ (forall env options p t,
       opt_auth options = Some t ->
       substring 0 6 t <> "Bearer" ->
       authorizationHeader (new_Client env options p).1 = Some ("Bearer " +:+ t)).
Proof.
  intros H.
  specialize (H Sample.env (Sample.options (Some "") None) initialProcess ""
                eq_refl ltac:(discriminate)).
  vm_compute in H. discriminate H.
Qed.

(** C10 (amended): the prefix is recognised by the first six characters
    alone, which must be exactly ["Bearer"]: a token that starts with
    them, with or without a following space, is sent unchanged; every
    other token that is not the empty string, which includes
    ["bearer abc123"], is sent after ["Bearer "]; without an auth
    option, or with the empty string as auth option, the header is the
    empty string. *)
Theorem bearer_recognition_first_six env options p :
  let c := (new_Client env options p).1 in
  (forall t, Js.startsWith t "Bearer" = true <-> substring 0 6 t = "Bearer")
  /\ (forall t, opt_auth options = Some t -> substring 0 6 t = "Bearer" ->
        authorizationHeader c = Some t)
  /\ (forall t, opt_auth options = Some t -> t <> "" -> substring 0 6 t <> "Bearer" ->
        authorizationHeader c = Some ("Bearer " +:+ t))
  /\ (opt_auth options = Some "Bearerabc123" ->
        authorizationHeader c = Some "Bearerabc123")
  /\ (opt_auth options = Some "bearer abc123" ->
        authorizationHeader c = Some "Bearer bearer abc123")
  /\ (opt_auth options = None \/ opt_auth options = Some "" ->
        authorizationHeader c = Some "").
Proof.
  intros c. subst c. rewrite authorizationHeader_new_Client.
  split; [intros t; apply (startsWith_substring t "Bearer")|].
  split; [|split; [|split; [|split]]].
  - intros t -> H. f_equal. apply constructor_auth_prefixed.
    by apply (startsWith_substring t "Bearer").
  - intros t -> Hne H. f_equal. apply constructor_auth_bare; [done|].
    destruct (Js.startsWith t "Bearer") eqn:E; [|done].
    by apply (startsWith_substring t "Bearer") in E.
  - by intros ->.
  - by intros ->.
  - by intros [-> | ->].
Qed.

(** ** Error classification and decoding *)

Lemma new_Client_no_listener env options p :
  no_listener_throws (new_Client env options p).1.
Proof.
  intros event payload. unfold new_Client, new_RestClient.
  by destruct (restClientCopiesSettings env).
Qed.

(** [parseInt] finds no number in a string that starts with a character
    that is neither white space, nor a sign, nor a decimal digit. *)
Lemma parseInt_not_numeric (a : ascii) (s : string) :
  Js.isStrWhiteSpace a = false ->
  a <> "+"%char -> a <> "-"%char ->
  Js.isDecimalDigit a = false ->
  Js.parseInt (Some (String a s)) = None.
Proof.
  intros Hw Hp Hm Hd.
  destruct a as [[] [] [] [] [] [] [] []];
    try discriminate Hw; try discriminate Hd; try (by destruct Hp);
    try (by destruct Hm); reflexivity.
Qed.

(** C2: a response with status 429 rejects the call with a
    [RatelimitError], never with a plain [FapiError]; its
    [ratelimitReset] is what [parseInt] reads in the header
    [x-rate-limit-reset], and 0 when the header is missing or
    [parseInt] finds no number in it. *)
Theorem ratelimited_response_throws_RatelimitError net options c res :
  no_listener_throws c ->
  net (setContentType options) = Return res ->
  statusCode res = 429 ->
  exists e,
    result (request net options c) = Throw (ThrownRatelimitError e)
    /\ (forall f, result (request net options c) <> Throw (ThrownFapiError f))
    /\ super e = new_FapiError STATUS_CODES_429 429 (res_request res)
    /\ (forall n, Js.parseInt (res_headers res !! ReturnHeaders.RATELIMIT_RESET) = Some n ->
          ratelimitReset e = n)
    /\ (Js.parseInt (res_headers res !! ReturnHeaders.RATELIMIT_RESET) = None ->
          ratelimitReset e = 0)
    /\ (res_headers res !! ReturnHeaders.RATELIMIT_RESET = None ->
          ratelimitReset e = 0)
    /\ (forall a s,
          res_headers res !! ReturnHeaders.RATELIMIT_RESET = Some (String a s) ->
          Js.isStrWhiteSpace a = false -> a <> "+"%char -> a <> "-"%char ->
          Js.isDecimalDigit a = false ->
          ratelimitReset e = 0).
Proof.
  intros Hq Hn Hs.
  pose proof (request_429 net options c res (Hq _ _) Hn Hs) as Hrun.
  cbv zeta in Hrun. rewrite Hq in Hrun.
  eexists. rewrite Hrun. cbn [result].
  split; [reflexivity|]. split; [discriminate|]. split; [reflexivity|].
  cbn [new_RatelimitError ratelimitReset].
  split; [by intros n ->|]. split; [by intros ->|]. split; [by intros ->|].
  intros a s -> Hw Hp Hm Hd. by rewrite parseInt_not_numeric.
Qed.

Lemma ratelimited_response_throws_RatelimitError_witness :
  exists e,
    result (request (Sample.answering Sample.ratelimited) (Sample.getPaths None)
              Sample.client)
    = Throw (ThrownRatelimitError e)
    /\ ratelimitReset e = 17.
Proof.
  destruct (ratelimited_response_throws_RatelimitError
              (Sample.answering Sample.ratelimited) (Sample.getPaths None)
              Sample.client Sample.ratelimited
              (new_Client_no_listener _ _ _) eq_refl eq_refl)
    as (e & He & _ & _ & Hreset & _).
  exists e. split; [exact He|]. apply Hreset. vm_compute. reflexivity.
Defined.




(** C1 (what the code does): when the status is 200, JSON was asked for
    and [res.json()] throws, the call does not resolve to the body.
    The [catch] block reads the body; when that read resolves, the
    value it assigned is overwritten by the unset [json] and the call
    resolves to [undefined] (wrapped with the headers when they were
    asked for); when the read is rejected too, the call is rejected
    with its error. *)
Theorem json_parse_failure_returns_undefined net options c res :
  callListeners (listeners c RequestEvents.request)
    (RequestEvents.Request (setContentType options)) = None ->
  net (setContentType options) = Return res ->
  callListeners (listeners c RequestEvents.response)
    (RequestEvents.Response res) = None ->
  statusCode res = 200 ->
  returnType options = Some ReturnMethods.JSON ->
  res_json res = None ->
  (forall d, res_body res = BodyResolves d ->
     result (request net options c)
     = Return (if Js.truthy id (returnHeaders options)
               then BodyAndHeaders Undefined (res_headers res)
               else Undefined))
  /\ (forall v, res_body res = BodyRejects v ->
        result (request net options c) = Throw (ThrownByTransport v))
  /\ (forall d, result (request net options c) <> Return (BodyValue d))
  /\ (forall d h,
        result (request net options c) <> Return (BodyAndHeaders (BodyValue d) h)).
Proof.
  intros Hq Hn Hr Hs Ht Hj.
  assert (H429 : statusCode res <> 429) by (rewrite Hs; discriminate).
  rewrite (request_answered net options c res Hq Hn H429). cbn [result].
  rewrite Hr. unfold settles, withHeaders. rewrite Hs, Ht, Hj. cbn [Z.eqb Pos.eqb].
  split; [by intros d ->|]. split; [by intros v ->|].
  destruct (res_body res), (Js.truthy id (returnHeaders options)); by split.
Qed.

Lemma json_parse_failure_returns_undefined_witness :
  result (request (Sample.answering Sample.notJson)
            (Sample.getPaths (Some ReturnMethods.JSON)) Sample.client)
  = Return Undefined.
Proof.
  exact (proj1 (json_parse_failure_returns_undefined
                  (Sample.answering Sample.notJson)
                  (Sample.getPaths (Some ReturnMethods.JSON)) Sample.client
                  Sample.notJson eq_refl eq_refl eq_refl eq_refl eq_refl eq_refl)
           (RawBody "<html>") eq_refl).
Defined.

(** ** Notifications *)

(** C6: every call first emits [request]; the request goes to the
    transport after that, and when the response is there the call emits
    exactly one more notification: [ratelimit] when the status is 429,
    [response] for every other status, 200 or not. *)
Theorem notifications_in_order net options c :
  let o := setContentType options in
  (exists rest,
     trace (request net options c)
     = Emitted RequestEvents.request (RequestEvents.Request o) :: rest
     /\ (rest = [] \/ exists rest', rest = Sent o :: rest'))
  /\ (forall res,
        callListeners (listeners c RequestEvents.request) (RequestEvents.Request o) = None ->
        net o = Return res ->
        trace (request net options c)
        = [Emitted RequestEvents.request (RequestEvents.Request o);
           Sent o;
           if statusCode res =? 429
           then Emitted RequestEvents.ratelimit
                  (RequestEvents.Ratelimit o res
                     (Js.nanToZero
                        (Js.parseInt (res_headers res !! ReturnHeaders.RATELIMIT_RESET))))
           else Emitted RequestEvents.response (RequestEvents.Response res)]).
Proof.
  intros o. subst o.
  assert (Hres : forall res,
    callListeners (listeners c RequestEvents.request)
      (RequestEvents.Request (setContentType options)) = None ->
    net (setContentType options) = Return res ->
    trace (request net options c)
    = [Emitted RequestEvents.request (RequestEvents.Request (setContentType options));
       Sent (setContentType options);
       if statusCode res =? 429
       then Emitted RequestEvents.ratelimit
              (RequestEvents.Ratelimit (setContentType options) res
                 (Js.nanToZero
                    (Js.parseInt (res_headers res !! ReturnHeaders.RATELIMIT_RESET))))
       else Emitted RequestEvents.response (RequestEvents.Response res)]).
  { intros res Hq Hn.
    destruct (Z.eqb_spec (statusCode res) 429) as [Hs|Hs].
    - by rewrite (request_429 net options c res Hq Hn Hs).
    - by rewrite (request_answered net options c res Hq Hn Hs). }
  split; [|exact Hres].
  destruct (callListeners (listeners c RequestEvents.request)
              (RequestEvents.Request (setContentType options))) as [v|] eqn:Hq.
  - rewrite (request_listener_throws net options c v Hq). cbn [trace]. eauto.
  - destruct (net (setContentType options)) as [res|t] eqn:Hn.
    + rewrite (Hres res eq_refl eq_refl). eauto.
    + rewrite (request_rejected net options c t Hq Hn). cbn [trace]. eauto.
Qed.

Lemma notifications_in_order_witness :
  trace (request (Sample.answering Sample.ratelimited) (Sample.getPaths None)
           (on RequestEvents.ratelimit (Sample.thrower "stop") Sample.client))
  = [Emitted RequestEvents.request (RequestEvents.Request (Sample.getPaths None));
     Sent (Sample.getPaths None);
     Emitted RequestEvents.ratelimit
       (RequestEvents.Ratelimit (Sample.getPaths None) Sample.ratelimited 17)]
  /\ trace (request (Sample.answering Sample.failed) (Sample.getPaths None)
              Sample.client)
     = [Emitted RequestEvents.request (RequestEvents.Request (Sample.getPaths None));
        Sent (Sample.getPaths None);
        Emitted RequestEvents.response (RequestEvents.Response Sample.failed)].
Proof.
  split.
  - exact (proj2 (notifications_in_order (Sample.answering Sample.ratelimited)
                    (Sample.getPaths None)
                    (on RequestEvents.ratelimit (Sample.thrower "stop") Sample.client))
             Sample.ratelimited eq_refl eq_refl).
  - exact (proj2 (notifications_in_order (Sample.answering Sample.failed)
                    (Sample.getPaths None) Sample.client)
             Sample.failed eq_refl eq_refl).
Defined.


(** *** Observers *)

Lemma emitWith_returns {A} event payload (ls : list (A -> Observed A)) a a' c :
  notify ls a = Leaves a' ->
  emitWith event payload ls a c
  = {| result := Return a'; final := c; trace := [Emitted event payload] |}.
Proof. intros H. unfold emitWith. by rewrite H. Qed.

Lemma emitWith_throws {A} event payload (ls : list (A -> Observed A)) a v c :
  notify ls a = Threw v ->
  emitWith event payload ls a c
  = {| result := Throw (ThrownByListener v); final := c;
       trace := [Emitted event payload] |}.
Proof. intros H. unfold emitWith. by rewrite H. Qed.

Lemma requestWith_thrown obs net options c v :
  notify (onRequest obs) (setContentType options) = Threw v ->
  requestWith obs net options c
  = {| result := Throw (ThrownByListener v); final := c;
       trace := [Emitted RequestEvents.request
                   (RequestEvents.Request (setContentType options))] |}.
Proof.
  intros Hq. unfold requestWith. cbv zeta.
  by rewrite (bind_Throw _ _ _ _ _ _ (emitWith_throws _ _ _ _ _ _ Hq)).
Qed.

Lemma requestWith_rejected obs net options c o t :
  notify (onRequest obs) (setContentType options) = Leaves o ->
  net o = Throw t ->
  requestWith obs net options c
  = {| result := Throw t; final := c;
       trace := [Emitted RequestEvents.request
                   (RequestEvents.Request (setContentType options));
                 Sent o] |}.
Proof.
  intros Hq Hn. unfold requestWith. cbv zeta.
  rewrite (bind_Return _ _ _ _ _ _ (emitWith_returns _ _ _ _ _ _ Hq)).
  erewrite bind_Throw; [reflexivity|].
  rewrite restClient_request_run, Hn. reflexivity.
Qed.

Lemma requestWith_429 obs net options c o res :
  notify (onRequest obs) (setContentType options) = Leaves o ->
  net o = Return res ->
  statusCode res = 429 ->
  let reset :=
    Js.nanToZero (Js.parseInt (res_headers res !! ReturnHeaders.RATELIMIT_RESET)) in
  requestWith obs net options c
  = {| result :=
         match notify ((fun l => l reset) <$> onRatelimit obs) (o, res) with
         | Threw v => Throw (ThrownByListener v)
         | Leaves seen =>
             Throw (ThrownRatelimitError (new_RatelimitError reset (res_request seen.2)))
         end;
       final := withRatelimitState c
                  (trackHeaders (res_headers res) (ratelimitState c));
       trace := [Emitted RequestEvents.request
                   (RequestEvents.Request (setContentType options));
                 Sent o;
                 Emitted RequestEvents.ratelimit (RequestEvents.Ratelimit o res reset)] |}.
Proof.
  intros Hq Hn Hs reset. unfold requestWith. cbv zeta.
  rewrite (bind_Return _ _ _ _ _ _ (emitWith_returns _ _ _ _ _ _ Hq)).
  erewrite bind_Return; [|by rewrite restClient_request_run, Hn].
  erewrite bind_Return; [|apply forOf_track].
  rewrite Hs. cbn [Z.eqb Pos.eqb]. fold reset.
  set (c' := withRatelimitState c _).
  destruct (notify ((fun l => l reset) <$> onRatelimit obs) (o, res))
    as [v|seen] eqn:Hl.
  - erewrite bind_Throw; [reflexivity|].
    erewrite bind_Throw; [reflexivity|]. by apply emitWith_throws.
  - erewrite bind_Throw; [reflexivity|].
    erewrite bind_Return; [|by apply emitWith_returns]. reflexivity.
Qed.

Lemma requestWith_answered obs net options c o res :
  notify (onRequest obs) (setContentType options) = Leaves o ->
  net o = Return res ->
  statusCode res <> 429 ->
  requestWith obs net options c
  = {| result :=
         match notify (onResponse obs) res with
         | Threw v => Throw (ThrownByListener v)
         | Leaves res' => settles o res'
         end;
       final := withRatelimitState c
                  (trackHeaders (res_headers res) (ratelimitState c));
       trace := [Emitted RequestEvents.request
                   (RequestEvents.Request (setContentType options));
                 Sent o;
                 Emitted RequestEvents.response (RequestEvents.Response res)] |}.
Proof.
  intros Hq Hn Hs. unfold requestWith. cbv zeta.
  rewrite (bind_Return _ _ _ _ _ _ (emitWith_returns _ _ _ _ _ _ Hq)).
  erewrite bind_Return; [|by rewrite restClient_request_run, Hn].
  erewrite bind_Return; [|apply forOf_track].
  destruct (Z.eqb_spec (statusCode res) 429) as [|_]; [done|].
  erewrite bind_Return; [|reflexivity].
  set (c' := withRatelimitState c _).
  destruct (notify (onResponse obs) res) as [v|res'] eqn:Hl.
  - erewrite bind_Throw; [reflexivity|]. by apply emitWith_throws.
  - erewrite bind_Return; [|by apply emitWith_returns].
    by rewrite tail_settles.
Qed.

Lemma notify_request_listeners (ls : list Listener) o :
  notify ((fun (l : Listener) o =>
             match l (RequestEvents.Request o) with
             | Some v => Threw v
             | None => Leaves o
             end) <$> ls) o
  = match callListeners ls (RequestEvents.Request o) with
    | Some v => Threw v
    | None => Leaves o
    end.
Proof.
  induction ls as [|l ls IH]; [reflexivity|].
  cbn [fmap list_fmap notify callListeners].
  by destruct (l (RequestEvents.Request o)).
Qed.

Lemma notify_response_listeners (ls : list Listener) res :
  notify ((fun (l : Listener) res =>
             match l (RequestEvents.Response res) with
             | Some v => Threw v
             | None => Leaves res
             end) <$> ls) res
  = match callListeners ls (RequestEvents.Response res) with
    | Some v => Threw v
    | None => Leaves res
    end.
Proof.
  induction ls as [|l ls IH]; [reflexivity|].
  cbn [fmap list_fmap notify callListeners].
  by destruct (l (RequestEvents.Response res)).
Qed.

Lemma notify_ratelimit_listeners (ls : list Listener) o res reset :
  notify ((fun l => l reset)
            <$> ((fun (l : Listener) reset (p : Request * FapiResponse) =>
                    match l (RequestEvents.Ratelimit p.1 p.2 reset) with
                    | Some v => Threw v
                    | None => Leaves p
                    end) <$> ls)) (o, res)
  = match callListeners ls (RequestEvents.Ratelimit o res reset) with
    | Some v => Threw v
    | None => Leaves (o, res)
    end.
Proof.
  induction ls as [|l ls IH]; [reflexivity|].
  cbn [fmap list_fmap notify callListeners fst snd].
  by destruct (l (RequestEvents.Ratelimit o res reset)).
Qed.

(** [request] is [requestWith] for listeners that leave what they are
    handed as it was. *)
Lemma requestWith_observersOf net options c :
  requestWith (observersOf c) net options c = request net options c.
Proof.
  pose proof (notify_request_listeners (listeners c RequestEvents.request)
                (setContentType options)) as Hreq.
  destruct (callListeners (listeners c RequestEvents.request)
              (RequestEvents.Request (setContentType options))) as [v|] eqn:Hq.
  { by rewrite (requestWith_thrown (observersOf c) net options c v Hreq),
      (request_listener_throws net options c v Hq). }
  destruct (net (setContentType options)) as [res|t] eqn:Hn.
  2: { by rewrite (requestWith_rejected (observersOf c) net options c _ t Hreq Hn),
         (request_rejected net options c t Hq Hn). }
  destruct (Z.eqb_spec (statusCode res) 429) as [Hs|Hs].
  - rewrite (requestWith_429 (observersOf c) net options c _ res Hreq Hn Hs),
      (request_429 net options c res Hq Hn Hs).
    cbv zeta. cbn [observersOf onRatelimit].
    rewrite notify_ratelimit_listeners.
    by destruct (callListeners (listeners c RequestEvents.ratelimit) _).
  - rewrite (requestWith_answered (observersOf c) net options c _ res Hreq Hn Hs),
      (request_answered net options c res Hq Hn Hs).
    cbn [observersOf onResponse]. rewrite notify_response_listeners.
    destruct (callListeners (listeners c RequestEvents.response) _); [reflexivity|].
    unfold settles, withHeaders.
    by rewrite setContentType_returnType, setContentType_returnHeaders.
Qed.

(** An observer of [request] that returns after it wrote to the options
    changes what the call resolves to. *)
Lemma writing_observer_changes_outcome :
  result (requestWith
            {| onRequest := [SampleObservers.asksForJson];
               onRatelimit := []; onResponse := [] |}
            (Sample.answering SampleEndpoints.json)
            (Sample.getPaths (Some ReturnMethods.BODY)) Sample.client)
  = Return (JsonResult (JArray [JNumber 1]))
  /\ result (requestWith noObservers (Sample.answering SampleEndpoints.json)
               (Sample.getPaths (Some ReturnMethods.BODY)) Sample.client)
     = Return (BodyValue (RawBody "[1]")).
Proof. split; reflexivity. Qed.



(** ** The rate-limit state *)

Lemma final_request_answered net options c res :
  answered c (net, options) res ->
  final (request net options c)
  = withRatelimitState c (trackHeaders (res_headers res) (ratelimitState c)).
Proof.
  intros [Hq Hn]. cbn [fst snd] in *.
  destruct (Z.eqb_spec (statusCode res) 429) as [Hs|Hs].
  - by rewrite (request_429 net options c res Hq Hn Hs).
  - by rewrite (request_answered net options c res Hq Hn Hs).
Qed.

Lemma requests_answered calls responses c :
  Forall2 (answered c) calls responses ->
  requests calls c
  = withRatelimitState c (trackResponses responses (ratelimitState c)).
Proof.
  intros H. revert c responses H.
  induction calls as [|[net options] calls IH]; intros c responses H;
    inversion H as [|? res ? responses' Hhd Htl]; subst.
  - cbn. by rewrite withRatelimitState_same.
  - unfold requests in *. cbn [foldl fst snd].
    rewrite (final_request_answered net options c res Hhd).
    rewrite (IH _ responses'); [reflexivity|].
    eapply Forall2_impl; [exact Htl|]. intros call r Ha. exact Ha.
Qed.

Lemma trackResponses_app rs1 rs2 st :
  trackResponses (rs1 ++ rs2) st = trackResponses rs2 (trackResponses rs1 st).
Proof. unfold trackResponses. apply foldl_app. Qed.

Lemma trackResponses_not_carried rs st k :
  Forall (fun r => forall v, ~ carries (res_headers r) k v) rs ->
  trackResponses rs st !! k = st !! k.
Proof.
  intros H. revert st. induction H as [|r rs Hr _ IH]; intros st; [reflexivity|].
  change (trackResponses (r :: rs) st)
    with (trackResponses rs (trackHeaders (res_headers r) st)).
  by rewrite IH, trackHeaders_not_carried.
Qed.

Lemma trackResponses_last_carried rs1 r rs2 st k v :
  k ∈ ratelimitHeaders ->
  carries (res_headers r) k v ->
  Forall (fun r' => forall v', ~ carries (res_headers r') k v') rs2 ->
  trackResponses (rs1 ++ r :: rs2) st !! k = Some v.
Proof.
  intros Hk Hc Hrest. rewrite trackResponses_app.
  change (trackResponses (r :: rs2) ?s)
    with (trackResponses rs2 (trackHeaders (res_headers r) s)).
  rewrite trackResponses_not_carried by done.
  by apply trackHeaders_carried.
Qed.

(** C4 (as stated, refuted): a rate-limit header that is present with an
    empty value is not written to the state, which keeps the value of
    an earlier response. *)
Lemma empty_header_is_not_recorded :
  ~ (forall net options c res k v,
       answered c (net, options) res ->
       k ∈ ratelimitHeaders ->
       res_headers res !! k = Some v ->
       ratelimitState (final (request net options c)) !! k = Some v).
Proof.
  intros H.
  specialize (H (Sample.answering Sample.emptyRemaining) (Sample.getPaths None)
                (requests [(Sample.answering Sample.notJson, Sample.getPaths None)]
                   Sample.client)
                Sample.emptyRemaining ReturnHeaders.RATELIMIT_REMAINING "").
  assert (Hin : ReturnHeaders.RATELIMIT_REMAINING ∈ ratelimitHeaders)
    by (unfold ratelimitHeaders; set_solver).
  specialize (H (conj eq_refl eq_refl) Hin eq_refl).
  vm_compute in H. discriminate H.
Qed.

(** C4 (amended): whatever the status of the response, each of the
    three fields is overwritten with the value of its header exactly
    when the header is there with a value that is not the empty string,
    and keeps what it had otherwise; no other key is written.  After a
    sequence of answered calls a field holds the value of the last
    response that carried one, and what it had before (unset, on a new
    client) when no response carried one. *)
Theorem ratelimit_state_tracks_carried_headers :
  (forall net options c res k,
     answered c (net, options) res ->
     let st' := ratelimitState (final (request net options c)) in
     (forall v, k ∈ ratelimitHeaders -> carries (res_headers res) k v ->
        st' !! k = Some v)
     /\ ((forall v, ~ carries (res_headers res) k v) ->
           st' !! k = ratelimitState c !! k)
     /\ (k ∉ ratelimitHeaders -> st' !! k = ratelimitState c !! k))
  /\ (forall calls responses c k,
        Forall2 (answered c) calls responses ->
        let st' := ratelimitState (requests calls c) in
        (forall rs1 r rs2 v,
           responses = rs1 ++ r :: rs2 ->
           k ∈ ratelimitHeaders ->
           carries (res_headers r) k v ->
           Forall (fun r' => forall v', ~ carries (res_headers r') k v') rs2 ->
           st' !! k = Some v)
        /\ (Forall (fun r' => forall v', ~ carries (res_headers r') k v') responses ->
              st' !! k = ratelimitState c !! k)).
Proof.
  split.
  - intros net options c res k Ha st'. subst st'.
    rewrite (final_request_answered net options c res Ha).
    cbn [withRatelimitState ratelimitState].
    split; [|split].
    + intros v Hk Hc. by apply trackHeaders_carried.
    + apply trackHeaders_not_carried.
    + apply trackHeaders_lookup_other.
  - intros calls responses c k Ha st'. subst st'.
    rewrite (requests_answered calls responses c Ha).
    cbn [withRatelimitState ratelimitState].
    split.
    + intros rs1 r rs2 v -> Hk Hc Hrest. by apply trackResponses_last_carried.
    + apply trackResponses_not_carried.
Qed.

Lemma ratelimit_state_tracks_carried_headers_witness :
  ratelimitState (requests (take 1 Sample.threeCalls) Sample.client)
    !! ReturnHeaders.RATELIMIT_REMAINING = None
  /\ ratelimitState (requests (take 2 Sample.threeCalls) Sample.client)
       !! ReturnHeaders.RATELIMIT_REMAINING = None
  /\ ratelimitState (requests Sample.threeCalls Sample.client)
       !! ReturnHeaders.RATELIMIT_REMAINING = Some "7".
Proof.
  assert (Hno : forall r, r = Sample.withoutRemaining \/ r = Sample.failed ->
            forall v, ~ carries (res_headers r) ReturnHeaders.RATELIMIT_REMAINING v).
  { intros r [-> | ->] v [Hl _]; vm_compute in Hl; discriminate Hl. }
  assert (Hin : ReturnHeaders.RATELIMIT_REMAINING ∈ ratelimitHeaders)
    by (unfold ratelimitHeaders; set_solver).
  pose proof (proj2 ratelimit_state_tracks_carried_headers) as Hseq.
  split; [|split].
  - apply (proj2 (Hseq (take 1 Sample.threeCalls) [Sample.withoutRemaining]
                    Sample.client ReturnHeaders.RATELIMIT_REMAINING
                    ltac:(repeat constructor))).
    repeat constructor; apply Hno; auto.
  - apply (proj2 (Hseq (take 2 Sample.threeCalls)
                    [Sample.withoutRemaining; Sample.failed]
                    Sample.client ReturnHeaders.RATELIMIT_REMAINING
                    ltac:(repeat constructor))).
    repeat constructor; apply Hno; auto.
  - apply (proj1 (Hseq Sample.threeCalls
                    [Sample.withoutRemaining; Sample.failed; Sample.notJson]
                    Sample.client ReturnHeaders.RATELIMIT_REMAINING
                    ltac:(repeat constructor))
             [Sample.withoutRemaining; Sample.failed] Sample.notJson [] "7"
             eq_refl Hin).
    + split; [reflexivity | discriminate].
    + constructor.
Defined.

(** ** The content type of the request *)

Lemma sentOptions_request net options c :
  callListeners (listeners c RequestEvents.request)
    (RequestEvents.Request (setContentType options)) = None ->
  sentOptions (request net options c) = [setContentType options].
Proof.
  intros Hq. unfold sentOptions.
  destruct (net (setContentType options)) as [res|t] eqn:Hn.
  - destruct (Z.eqb_spec (statusCode res) 429) as [Hs|Hs].
    + by rewrite (request_429 net options c res Hq Hn Hs).
    + by rewrite (request_answered net options c res Hq Hn Hs).
  - by rewrite (request_rejected net options c t Hq Hn).
Qed.

(** The image endpoints: [fetchImage] builds a POST with a body and no
    headers object, which goes to the transport as it is. *)
Lemma fetchImage_sends_no_headers net endpoint body c :
  no_listener_throws c ->
  exists o,
    sentOptions (fetchImage net endpoint body c) = [o]
    /\ method o = Some HttpMethods.POST
    /\ RequestTypes.body o = Some body
    /\ headers o = None.
Proof.
  intros Hq. unfold fetchImage. eexists.
  split; [apply sentOptions_request, Hq|]. done.
Qed.

(** C5 (as stated, refuted): a POST with a body and a declared content
    type, but without a headers object, goes to the transport without a
    content-type header. *)
Lemma body_without_headers_gets_no_content_type :
  ~ (forall net options c o,
       o ∈ sentOptions (request net options c) ->
       method options <> Some HttpMethods.GET ->
       is_Some (body options) ->
       exists h,
         headers o = Some h
         /\ h !! ReturnHeaders.CONTENT_TYPE
            = Some (Js.or_string (contentType options) "application/json")).
Proof.
  intros H.
  destruct (H (Sample.answering Sample.withoutRemaining) Sample.postText
              Sample.client Sample.postText) as (h & Hh & _).
  - vm_compute. left.
  - discriminate.
  - by eexists.
  - discriminate Hh.
Qed.

(** C5 (amended): when the method is not GET and the descriptor has a
    headers object, with or without a body, the request goes to the
    transport with the content-type header set to the declared content
    type, or to [application/json] when none is declared (or the
    declared one is the empty string), the other headers being kept;
    when the descriptor has no headers object, or the method is GET, it
    goes to the transport as it is. *)
Theorem content_type_set_on_headers_object net options c :
  callListeners (listeners c RequestEvents.request)
    (RequestEvents.Request (setContentType options)) = None ->
  exists o,
    sentOptions (request net options c) = [o]
    /\ (forall h,
          method options <> Some HttpMethods.GET ->
          headers options = Some h ->
          exists h',
            headers o = Some h'
            /\ h' !! ReturnHeaders.CONTENT_TYPE
               = Some (match contentType options with
                       | Some (String a t) => String a t
                       | _ => "application/json"
                       end)
            /\ (forall k, k <> ReturnHeaders.CONTENT_TYPE -> h' !! k = h !! k))
    /\ (headers options = None \/ method options = Some HttpMethods.GET ->
          o = options)
    /\ method o = method options /\ body o = body options /\ path o = path options.
Proof.
  intros Hq. exists (setContentType options).
  split; [by apply sentOptions_request|].
  unfold setContentType.
  split; [|split].
  - intros h Hm Hh. rewrite Hh.
    rewrite bool_decide_eq_false_2 by done. cbn [negb headers].
    eexists. split; [reflexivity|]. split.
    + rewrite lookup_insert_eq. f_equal.
      unfold Js.or_string. by destruct (contentType options) as [[|]|].
    + intros k Hk. by rewrite lookup_insert_ne.
  - intros [-> | Hm]; [reflexivity|].
    rewrite bool_decide_eq_true_2 by done. by destruct (headers options).
  - destruct (headers options); [|done]. by destruct (negb _).
Qed.

Lemma content_type_set_on_headers_object_witness :
  exists o,
    sentOptions (request (Sample.answering Sample.withoutRemaining)
                   Sample.postTextWithHeaders Sample.client) = [o]
    /\ exists h',
         headers o = Some h'
         /\ h' !! ReturnHeaders.CONTENT_TYPE = Some "text/plain".
Proof.
  destruct (content_type_set_on_headers_object
              (Sample.answering Sample.withoutRemaining)
              Sample.postTextWithHeaders Sample.client eq_refl)
    as (o & Hsent & Hset & _).
  exists o. split; [exact Hsent|].
  destruct (Hset (<["accept" := "*/*"]> ∅)) as (h' & Hh' & Hct & _);
    [discriminate | reflexivity |].
  exists h'. split; [exact Hh' | exact Hct].
Defined.

(** ** The constructor: the timeout *)

Lemma get_timeout_new_Client env options p :
  get_timeout (new_Client env options p).2 (new_Client env options p).1
  = match opt_timeout options with
    | Some t => if Js.truthy_number t then Some t
                else settings_timeout (defaultSettings p)
    | None => settings_timeout (defaultSettings p)
    end.
Proof.
  unfold get_timeout, new_Client, new_RestClient.
  destruct (restClientCopiesSettings env);
    cbn [fst snd restClient rest_settings readSettings ownSettings defaultSettings].
  - rewrite list_lookup_middle by reflexivity.
    destruct (opt_timeout options) as [t|]; [|reflexivity].
    by destruct (Js.truthy_number t).
  - destruct (opt_timeout options) as [t|]; [|reflexivity].
    by destruct (Js.truthy_number t).
Qed.

Lemma defaultSettings_new_Client env options p :
  settings_timeout (defaultSettings (new_Client env options p).2)
  = match opt_timeout options with
    | Some t => if Js.truthy_number t then Some t
                else settings_timeout (defaultSettings p)
    | None => settings_timeout (defaultSettings p)
    end.
Proof.
  unfold new_Client, new_RestClient.
  destruct (restClientCopiesSettings env); cbn [snd defaultSettings];
    (destruct (opt_timeout options) as [t|]; [|reflexivity]);
    by destruct (Js.truthy_number t).
Qed.

(** The first client of a process, made without a timeout option, has
    the timeout 15000. *)
Lemma first_client_timeout env options :
  opt_timeout options = None ->
  get_timeout (new_Client env options initialProcess).2
    (new_Client env options initialProcess).1 = Some 15000.
Proof. intros H. by rewrite get_timeout_new_Client, H. Qed.

(** C7 (what the code does): the constructor writes the timeout option
    into the object [defaultSettings] of the module, so a client made
    without a timeout option after a client made with the timeout [t]
    has the timeout [t], whether or not the transport copies its
    settings. *)
Theorem later_client_inherits_timeout env first later p t :
  opt_timeout first = Some t ->
  t <> 0 ->
  opt_timeout later = None ->
  let p1 := (new_Client env first p).2 in
  let made := new_Client env later p1 in
  get_timeout made.2 made.1 = Some t.
Proof.
  intros Hf Ht Hl p1 made. subst made p1.
  rewrite get_timeout_new_Client, Hl, defaultSettings_new_Client, Hf.
  unfold Js.truthy_number. by destruct (Z.eqb_spec t 0).
Qed.

Lemma later_client_inherits_timeout_witness :
  get_timeout
    (new_Client Sample.env (Sample.options None None)
       (new_Client Sample.env (Sample.options None (Some 5000)) initialProcess).2).2
    (new_Client Sample.env (Sample.options None None)
       (new_Client Sample.env (Sample.options None (Some 5000)) initialProcess).2).1
  = Some 5000.
Proof.
  apply (later_client_inherits_timeout Sample.env
           (Sample.options None (Some 5000)) (Sample.options None None)
           initialProcess 5000);
    [reflexivity | discriminate | reflexivity].
Defined.

(** ** Further properties of [request] *)

(** X1: a response with status 200 settles the call by the return type
    asked for: for the raw body, to what [res.body()] resolves to, or
    to its rejection; for JSON, to the parsed JSON when parsing
    succeeds; for no return type, to the response itself.  With
    [returnHeaders] the value comes as [{ body, headers }] with the
    headers of the response. *)
Theorem successful_response_is_decoded net options c res :
  callListeners (listeners c RequestEvents.request)
    (RequestEvents.Request (setContentType options)) = None ->
  net (setContentType options) = Return res ->
  callListeners (listeners c RequestEvents.response)
    (RequestEvents.Response res) = None ->
  statusCode res = 200 ->
  let wrapped v :=
    Return (if Js.truthy id (returnHeaders options)
            then BodyAndHeaders v (res_headers res) else v) in
  (forall d, returnType options = Some ReturnMethods.BODY ->
     res_body res = BodyResolves d ->
     result (request net options c) = wrapped (BodyValue d))
  /\ (forall v, returnType options = Some ReturnMethods.BODY ->
        res_body res = BodyRejects v ->
        result (request net options c) = Throw (ThrownByTransport v))
  /\ (forall j, returnType options = Some ReturnMethods.JSON ->
        res_json res = Some j ->
        result (request net options c) = wrapped (JsonResult j))
  /\ (returnType options = None ->
        result (request net options c) = wrapped (WholeResponse res)).
Proof.
  intros Hq Hn Hr Hs wrapped. subst wrapped.
  assert (H429 : statusCode res <> 429) by (rewrite Hs; discriminate).
  rewrite (request_answered net options c res Hq Hn H429). cbn [result].
  rewrite Hr. unfold settles, withHeaders. rewrite Hs. cbn [Z.eqb Pos.eqb].
  split; [by intros d -> ->|]. split; [by intros v -> ->|].
  split; [by intros j -> ->|by intros ->].
Qed.

Lemma successful_response_is_decoded_witness :
  result (request (Sample.answering SampleEndpoints.json)
            (Sample.getPaths (Some ReturnMethods.JSON)) Sample.client)
  = Return (JsonResult (JArray [JNumber 1])).
Proof.
  exact (proj1 (proj2 (proj2 (successful_response_is_decoded
                  (Sample.answering SampleEndpoints.json)
                  (Sample.getPaths (Some ReturnMethods.JSON)) Sample.client
                  SampleEndpoints.json eq_refl eq_refl eq_refl eq_refl)))
           (JArray [JNumber 1]) eq_refl eq_refl).
Defined.

(** X2: when the transport rejects, the call is rejected with the same
    value; the client is left as it was and no notification follows the
    one of [request]. *)
Theorem transport_failure_propagates net options c t :
  callListeners (listeners c RequestEvents.request)
    (RequestEvents.Request (setContentType options)) = None ->
  net (setContentType options) = Throw t ->
  result (request net options c) = Throw t
  /\ final (request net options c) = c
  /\ emittedEvents (request net options c) = [RequestEvents.request].
Proof.
  intros Hq Hn. by rewrite (request_rejected net options c t Hq Hn).
Qed.

Lemma transport_failure_propagates_witness :
  result (request SampleEndpoints.unreachable (Sample.getPaths None) Sample.client)
  = Throw (ThrownByTransport "ECONNREFUSED")
  /\ final (request SampleEndpoints.unreachable (Sample.getPaths None) Sample.client)
     = Sample.client
  /\ emittedEvents
       (request SampleEndpoints.unreachable (Sample.getPaths None) Sample.client)
     = [RequestEvents.request].
Proof.
  apply (transport_failure_propagates SampleEndpoints.unreachable
           (Sample.getPaths None) Sample.client (ThrownByTransport "ECONNREFUSED")
           eq_refl eq_refl).
Defined.

(** X3: when a listener throws on the notification that follows the
    response ([ratelimit] for status 429, [response] otherwise), the
    call is rejected with the value thrown, also for status 200, and
    the rate-limit state has the headers of the response all the
    same. *)
Theorem late_listener_throw_after_state_update net options c res v :
  answered c (net, options) res ->
  (if statusCode res =? 429
   then callListeners (listeners c RequestEvents.ratelimit)
          (RequestEvents.Ratelimit (setContentType options) res
             (Js.nanToZero
                (Js.parseInt (res_headers res !! ReturnHeaders.RATELIMIT_RESET))))
   else callListeners (listeners c RequestEvents.response)
          (RequestEvents.Response res)) = Some v ->
  result (request net options c) = Throw (ThrownByListener v)
  /\ ratelimitState (final (request net options c))
     = trackHeaders (res_headers res) (ratelimitState c).
Proof.
  intros [Hq Hn] Hv. cbn [fst snd] in *.
  destruct (Z.eqb_spec (statusCode res) 429) as [Hs|Hs].
  - rewrite (request_429 net options c res Hq Hn Hs). cbn [result final].
    by rewrite Hv.
  - rewrite (request_answered net options c res Hq Hn Hs). cbn [result final].
    by rewrite Hv.
Qed.

Lemma late_listener_throw_after_state_update_witness :
  result (request (Sample.answering Sample.notJson) (Sample.getPaths None)
            (on RequestEvents.response (Sample.thrower "boom") Sample.client))
  = Throw (ThrownByListener "boom")
  /\ ratelimitState
       (final (request (Sample.answering Sample.notJson) (Sample.getPaths None)
                 (on RequestEvents.response (Sample.thrower "boom") Sample.client)))
     = trackHeaders (res_headers Sample.notJson) ∅.
Proof.
  exact (late_listener_throw_after_state_update
           (Sample.answering Sample.notJson) (Sample.getPaths None)
           (on RequestEvents.response (Sample.thrower "boom") Sample.client)
           Sample.notJson "boom" (conj eq_refl eq_refl) eq_refl).
Defined.

Lemma listeners_on_same event l c :
  listeners (on event l c) event = listeners c event ++ [l].
Proof. by destruct event. Qed.

Lemma listeners_on_other event l c e :
  e <> event -> listeners (on event l c) e = listeners c e.
Proof. by destruct e, event. Qed.

Lemma callListeners_app ls ls' payload :
  callListeners (ls ++ ls') payload
  = match callListeners ls payload with
    | Some v => Some v
    | None => callListeners ls' payload
    end.
Proof.
  induction ls as [|l ls IH]; [reflexivity|].
  cbn [app callListeners]. by destruct (l payload).
Qed.

(** X4: a listener hears its own event only.  Whatever a listener of
    [ratelimit] does, it changes nothing of a call whose response has
    another status than 429, and whatever a listener of [response]
    does, it changes nothing of a call answered with 429. *)
Theorem listener_hears_its_event_only net options c l res :
  no_listener_throws c ->
  net (setContentType options) = Return res ->
  (statusCode res <> 429 ->
     request net options (on RequestEvents.ratelimit l c)
     = {| result := result (request net options c);
          final := on RequestEvents.ratelimit l (final (request net options c));
          trace := trace (request net options c) |})
  /\ (statusCode res = 429 ->
        request net options (on RequestEvents.response l c)
        = {| result := result (request net options c);
             final := on RequestEvents.response l (final (request net options c));
             trace := trace (request net options c) |}).
Proof.
  intros Hq Hn. split; intros Hs.
  - rewrite (request_answered net options c res (Hq _ _) Hn Hs).
    rewrite (request_answered net options (on RequestEvents.ratelimit l c) res);
      [reflexivity | apply Hq | exact Hn | exact Hs].
  - rewrite (request_429 net options c res (Hq _ _) Hn Hs).
    rewrite (request_429 net options (on RequestEvents.response l c) res);
      [reflexivity | apply Hq | exact Hn | exact Hs].
Qed.

Lemma listener_hears_its_event_only_witness :
  result (request (Sample.answering Sample.notJson)
            (Sample.getPaths (Some ReturnMethods.BODY))
            (on RequestEvents.ratelimit (Sample.thrower "boom") Sample.client))
  = Return (BodyValue (RawBody "<html>")).
Proof.
  rewrite (proj1 (listener_hears_its_event_only
                    (Sample.answering Sample.notJson)
                    (Sample.getPaths (Some ReturnMethods.BODY)) Sample.client
                    (Sample.thrower "boom") Sample.notJson
                    (new_Client_no_listener _ _ _) eq_refl)
             ltac:(discriminate)).
  reflexivity.
Defined.

(** X5: listeners are called in the order of their registration and the
    first one that throws ends the notification: once a listener of
    [request] throws [v], the call is rejected with [v] whatever
    listeners are registered after it, and nothing is sent. *)
Theorem first_throwing_listener_wins net options c event l v :
  callListeners (listeners c RequestEvents.request)
    (RequestEvents.Request (setContentType options)) = Some v ->
  result (request net options (on event l c)) = Throw (ThrownByListener v)
  /\ sentOptions (request net options (on event l c)) = [].
Proof.
  intros Hv.
  assert (Hv' : callListeners (listeners (on event l c) RequestEvents.request)
                  (RequestEvents.Request (setContentType options)) = Some v).
  { destruct event.
    - by rewrite listeners_on_other.
    - by rewrite listeners_on_same, callListeners_app, Hv.
    - by rewrite listeners_on_other. }
  by rewrite (request_listener_throws net options (on event l c) v Hv').
Qed.

Lemma first_throwing_listener_wins_witness :
  result (request (Sample.answering Sample.notJson) (Sample.getPaths None)
            (on RequestEvents.request (Sample.thrower "second")
               (on RequestEvents.request (Sample.thrower "first") Sample.client)))
  = Throw (ThrownByListener "first").
Proof.
  apply (first_throwing_listener_wins
           (Sample.answering Sample.notJson) (Sample.getPaths None)
           (on RequestEvents.request (Sample.thrower "first") Sample.client)
           RequestEvents.request (Sample.thrower "second") "first" eq_refl).
Defined.

(** ** What a call leaves of the client *)

Lemma final_request_cases net options c :
  final (request net options c) = c
  \/ exists res,
       final (request net options c)
       = withRatelimitState c (trackHeaders (res_headers res) (ratelimitState c)).
Proof.
  destruct (callListeners (listeners c RequestEvents.request)
              (RequestEvents.Request (setContentType options))) as [v|] eqn:Hq.
  - left. by rewrite (request_listener_throws net options c v Hq).
  - destruct (net (setContentType options)) as [res|t] eqn:Hn.
    + right. exists res. by apply final_request_answered.
    + left. by rewrite (request_rejected net options c t Hq Hn).
Qed.

Lemma trackHeaders_keeps_invariant h st :
  tracksOnlyRatelimitHeaders st -> tracksOnlyRatelimitHeaders (trackHeaders h st).
Proof.
  intros Hst k v Hk.
  destruct (decide (k ∈ ratelimitHeaders)) as [Hin|Hin].
  - split; [done|]. rewrite trackHeaders_lookup in Hk by done.
    destruct (h !! k) as [w|]; [|by apply (Hst k v)].
    destruct w as [|a w]; cbn [Js.truthy_string] in Hk; [by apply (Hst k v)|].
    by inversion Hk.
  - rewrite trackHeaders_lookup_other in Hk by done. by apply (Hst k v).
Qed.

(** X6: calls change nothing of the client but its rate-limit state,
    however they end, and the state never holds anything but the three
    rate-limit headers with values that are not empty. *)
Theorem calls_change_only_ratelimit_state calls c :
  tracksOnlyRatelimitHeaders (ratelimitState c) ->
  let c' := requests calls c in
  tracksOnlyRatelimitHeaders (ratelimitState c')
  /\ auth c' = auth c /\ baseUrl c' = baseUrl c
  /\ restClient c' = restClient c /\ listeners c' = listeners c.
Proof.
  revert c. induction calls as [|[net options] calls IH]; intros c Hst; [done|].
  cbv zeta. unfold requests. cbn [foldl fst snd].
  fold (requests calls (final (request net options c))).
  destruct (final_request_cases net options c) as [-> | [res ->]].
  - by apply IH.
  - destruct (IH (withRatelimitState c
                    (trackHeaders (res_headers res) (ratelimitState c))))
      as (H1 & H2 & H3 & H4 & H5).
    + by apply trackHeaders_keeps_invariant.
    + done.
Qed.

Lemma calls_change_only_ratelimit_state_witness :
  tracksOnlyRatelimitHeaders
    (ratelimitState (requests Sample.threeCalls Sample.client))
  /\ auth (requests Sample.threeCalls Sample.client) = "Bearer key1".
Proof.
  destruct (calls_change_only_ratelimit_state Sample.threeCalls Sample.client)
    as (H1 & H2 & _).
  - intros k v Hk. vm_compute in Hk. discriminate Hk.
  - split; [exact H1 | exact H2].
Defined.

(** ** The timeout and the base URL *)

Lemma rest_settings_new_Client env options p :
  rest_settings (restClient (new_Client env options p).1)
  = if restClientCopiesSettings env
    then OwnSettingsObject (length (ownSettings p))
    else DefaultSettingsObject.
Proof.
  unfold new_Client, new_RestClient.
  destruct (restClientCopiesSettings env); [|reflexivity].
  destruct (opt_timeout options) as [t|]; [|reflexivity].
  by destruct (Js.truthy_number t).
Qed.

Lemma ownSettings_new_Client env options p :
  ownSettings (new_Client env options p).2
  = if restClientCopiesSettings env
    then ownSettings p
         ++ [readSettings (new_Client env options p).2 DefaultSettingsObject]
    else ownSettings p.
Proof.
  unfold new_Client, new_RestClient.
  destruct (restClientCopiesSettings env); cbn [snd ownSettings readSettings];
    [|by destruct (opt_timeout options) as [t|]; [destruct (Js.truthy_number t)|]].
  f_equal. destruct (opt_timeout options) as [t|]; [|reflexivity].
  by destruct (Js.truthy_number t).
Qed.

(** X7: the timeout that is set on a client is the timeout that is read
    from it. *)
Theorem timeout_set_then_get env options p value :
  let made := new_Client env options p in
  get_timeout (set_timeout made.1 value made.2) made.1 = Some value.
Proof.
  cbv zeta. unfold get_timeout, set_timeout.
  rewrite rest_settings_new_Client.
  destruct (restClientCopiesSettings env) eqn:Hcopy;
    cbn [writeTimeout readSettings defaultSettings ownSettings settings_timeout];
    [|reflexivity].
  rewrite ownSettings_new_Client, Hcopy.
  rewrite list_lookup_insert_eq; [reflexivity|].
  rewrite length_app. cbn. lia.
Qed.

(** X8: what a timeout set on one client does to a client made after
    it.  When the transport keeps the settings object it is given, the
    two clients have the object [defaultSettings] in common and the
    timeout set on the first is the timeout of the second; when the
    transport copies the object, the second client keeps its own. *)
Theorem timeout_set_on_another_client env first later p value :
  let r1 := new_Client env first p in
  let r2 := new_Client env later r1.2 in
  (restClientCopiesSettings env = false ->
     get_timeout (set_timeout r1.1 value r2.2) r2.1 = Some value)
  /\ (restClientCopiesSettings env = true ->
        get_timeout (set_timeout r1.1 value r2.2) r2.1 = get_timeout r2.2 r2.1).
Proof.
  cbv zeta. unfold get_timeout, set_timeout.
  rewrite !rest_settings_new_Client. split; intros Hcopy; rewrite Hcopy.
  - reflexivity.
  - cbn [writeTimeout readSettings defaultSettings ownSettings].
    rewrite list_lookup_insert_ne; [reflexivity|].
    rewrite ownSettings_new_Client, Hcopy, length_app. cbn. lia.
Qed.

Lemma timeout_set_on_another_client_witness :
  get_timeout
    (set_timeout (SampleEndpoints.twoClients Sample.env).1.1 100
       (SampleEndpoints.twoClients Sample.env).2)
    (SampleEndpoints.twoClients Sample.env).1.2 = Some 100
  /\ get_timeout
       (set_timeout (SampleEndpoints.twoClients SampleEndpoints.copyingEnv).1.1 100
          (SampleEndpoints.twoClients SampleEndpoints.copyingEnv).2)
       (SampleEndpoints.twoClients SampleEndpoints.copyingEnv).1.2 = Some 15000.
Proof.
  split.
  - exact (proj1 (timeout_set_on_another_client Sample.env
                    (Sample.options None None) (Sample.options None None)
                    initialProcess 100) eq_refl).
  - exact (proj2 (timeout_set_on_another_client SampleEndpoints.copyingEnv
                    (Sample.options None None) (Sample.options None None)
                    initialProcess 100) eq_refl).
Defined.

(** X9: a timeout option of 0 counts as no option: the client has the
    timeout that [defaultSettings] holds, and [defaultSettings] is left
    as it was. *)
Theorem zero_timeout_is_no_timeout env options p :
  opt_timeout options = Some 0 ->
  let made := new_Client env options p in
  get_timeout made.2 made.1 = settings_timeout (defaultSettings p)
  /\ defaultSettings made.2 = defaultSettings p.
Proof.
  intros H0. cbv zeta. split.
  - by rewrite get_timeout_new_Client, H0.
  - unfold new_Client, new_RestClient. rewrite H0.
    by destruct (restClientCopiesSettings env).
Qed.

Lemma zero_timeout_is_no_timeout_witness :
  get_timeout
    (new_Client Sample.env (Sample.options None (Some 0)) initialProcess).2
    (new_Client Sample.env (Sample.options None (Some 0)) initialProcess).1
  = Some 15000.
Proof.
  exact (proj1 (zero_timeout_is_no_timeout Sample.env
                  (Sample.options None (Some 0)) initialProcess eq_refl)).
Defined.

(** X10: the base URL of a client is the option [baseUrl] when it is
    given and not empty, and [Api.Base] otherwise; the transport client
    gets the same base URL, the user agent and the Authorization
    header, and the rate-limit state of a new client is empty. *)
Theorem new_client_base_url env options p :
  let c := (new_Client env options p).1 in
  (forall u, opt_baseUrl options = Some u -> u <> "" -> baseUrl c = u)
  /\ (opt_baseUrl options = None \/ opt_baseUrl options = Some "" ->
        baseUrl c = Api_Base env)
  /\ rest_baseUrl (restClient c) = baseUrl c
  /\ rest_headers (restClient c) !! "user-agent" = Some (userAgent env)
  /\ dom (rest_headers (restClient c)) = {["Authorization"; "user-agent"]}
  /\ ratelimits c = ∅.
Proof.
  cbv zeta. unfold new_Client, new_RestClient.
  destruct (restClientCopiesSettings env);
    cbn [fst baseUrl restClient rest_baseUrl rest_headers ratelimits ratelimitState];
    (split; [intros u -> Hu; by destruct u|]);
    (split; [by intros [-> | ->]|]);
    (split; [reflexivity|]);
    (split; [by rewrite lookup_insert_eq|]);
    (split; [|reflexivity]);
    rewrite !dom_insert_L; set_solver.
Qed.

(** ** The endpoint methods *)

Lemma rooted_endpoint endpoint :
  Js.startsWith
    (if Js.startsWith endpoint "/" then endpoint else "/" +:+ endpoint) "/" = true.
Proof. destruct (Js.startsWith endpoint "/") eqn:E; [exact E|by destruct endpoint]. Qed.

(** X11: [fetchImage] sends a POST that asks for the raw body, with the
    body it is given, to a path that starts with a slash: the endpoint
    itself when it starts with one, the endpoint after a slash
    otherwise (a lone slash for the empty endpoint); normalising twice
    changes nothing more. *)
Theorem fetchImage_path_is_rooted net endpoint body c :
  no_listener_throws c ->
  exists o,
    sentOptions (fetchImage net endpoint body c) = [o]
    /\ Js.startsWith (path o) "/" = true
    /\ (Js.startsWith endpoint "/" = true -> path o = endpoint)
    /\ (Js.startsWith endpoint "/" = false -> path o = "/" +:+ endpoint)
    /\ method o = Some HttpMethods.POST
    /\ RequestTypes.body o = Some body
    /\ returnType o = Some ReturnMethods.BODY
    /\ returnHeaders o = None
    /\ fetchImage net (path o) body c = fetchImage net endpoint body c.
Proof.
  intros Hq. unfold fetchImage. eexists.
  split; [apply sentOptions_request, Hq|].
  cbn [setContentType headers path method RequestTypes.body returnType returnHeaders].
  split; [apply rooted_endpoint|].
  split; [by intros ->|]. split; [by intros ->|].
  do 4 (split; [reflexivity|]).
  by rewrite rooted_endpoint.
Qed.

Lemma fetchImage_path_is_rooted_witness :
  exists o,
    sentOptions (fetchImage (Sample.answering SampleEndpoints.png) "keemstar"
                   JNull Sample.client) = [o]
    /\ path o = "/keemstar".
Proof.
  destruct (fetchImage_path_is_rooted (Sample.answering SampleEndpoints.png)
              "keemstar" JNull Sample.client (new_Client_no_listener _ _ _))
    as (o & Hsent & _ & _ & Hpath & _).
  exists o. split; [exact Hsent|]. by apply Hpath.
Defined.

Lemma fetchImage_settles net endpoint body c res :
  no_listener_throws c ->
  (forall o, net o = Return res) ->
  statusCode res = 200 ->
  result (fetchImage net endpoint body c)
  = match res_body res with
    | BodyResolves d => Return (BodyValue d)
    | BodyRejects v => Throw (ThrownByTransport v)
    end.
Proof.
  intros Hq Hn Hs. unfold fetchImage.
  assert (H429 : statusCode res <> 429) by (rewrite Hs; discriminate).
  match goal with |- result (request net ?o c) = _ =>
    rewrite (request_answered net o c res (Hq _ _) (Hn _) H429)
  end.
  cbn [result]. rewrite Hq. unfold settles, withHeaders. rewrite Hs.
  cbn [Z.eqb Pos.eqb returnType returnHeaders Js.truthy].
  by destruct (res_body res).
Qed.

(** X12: on a response with status 200 the image methods
    ([requestImageFromImage], [requestImageFromText],
    [requestImageFromBoth], [composite]) settle as [res.body()] does:
    they resolve to what it resolves to, never to [undefined] and never
    to a value with headers, and they are rejected with its error when
    it is rejected. *)
Theorem image_methods_resolve_to_body routes net endpoint image text images c res :
  no_listener_throws c ->
  (forall o, net o = Return res) ->
  statusCode res = 200 ->
  let settled :=
    match res_body res with
    | BodyResolves d => Return (BodyValue d)
    | BodyRejects v => Throw (ThrownByTransport v)
    end in
  result (requestImageFromImage net endpoint image c) = settled
  /\ result (requestImageFromText net endpoint text c) = settled
  /\ result (requestImageFromBoth net endpoint image text c) = settled
  /\ result (composite routes net images c) = settled.
Proof.
  intros Hq Hn Hs settled. subst settled.
  unfold requestImageFromImage, requestImageFromText, requestImageFromBoth, composite.
  repeat split; by apply fetchImage_settles.
Qed.

Lemma image_methods_resolve_to_body_witness :
  result (requestImageFromBoth (Sample.answering SampleEndpoints.png)
            "consent" "https://fapi.dreadful.tech/images/logo.png" "yes" Sample.client)
  = Return (BodyValue (RawBody "PNG")).
Proof.
  exact (proj1 (proj2 (proj2
           (image_methods_resolve_to_body SampleEndpoints.routes
              (Sample.answering SampleEndpoints.png) "consent"
              "https://fapi.dreadful.tech/images/logo.png" "yes" (inr [])
              Sample.client SampleEndpoints.png
              (new_Client_no_listener _ _ _) (fun _ => eq_refl) eq_refl)))).
Defined.

(** X13: [composite] sends the images as an array in the order given;
    one URL is sent as the array of that URL alone, so it is the same
    call as with a one-element array. *)
Theorem composite_sends_an_array routes net images c :
  no_listener_throws c ->
  exists o,
    sentOptions (composite routes net images c) = [o]
    /\ (forall l, images = inr l ->
          RequestTypes.body o = Some (JObject [("images", JArray (JString <$> l))]))
    /\ (forall s, images = inl s ->
          RequestTypes.body o = Some (JObject [("images", JArray [JString s])])
          /\ composite routes net images c = composite routes net (inr [s]) c).
Proof.
  intros Hq. unfold composite.
  match goal with |- context [fetchImage net ?e ?b c] =>
    destruct (fetchImage_path_is_rooted net e b c Hq)
      as (o & Hsent & _ & _ & _ & _ & Hbody & _)
  end.
  exists o. split; [exact Hsent|]. rewrite Hbody.
  split; [by intros l ->|]. by intros s ->.
Qed.

Lemma composite_sends_an_array_witness :
  composite SampleEndpoints.routes (Sample.answering SampleEndpoints.png)
    (inl "a.png") Sample.client
  = composite SampleEndpoints.routes (Sample.answering SampleEndpoints.png)
      (inr ["a.png"]) Sample.client.
Proof.
  destruct (composite_sends_an_array SampleEndpoints.routes
              (Sample.answering SampleEndpoints.png) (inl "a.png") Sample.client
              (new_Client_no_listener _ _ _)) as (o & _ & _ & Hone).
  exact (proj2 (Hone "a.png" eq_refl)).
Defined.

(** X14: the path of [fetch4ChanBoard] is the route alone when no board
    is given (or an empty one), whatever the thread: a thread without a
    board is ignored; the route and the board when no thread is given
    (or an empty one); the route, the board and the thread otherwise.
    The request is a GET that asks for the raw body. *)
Theorem fetch4ChanBoard_path routes net options c :
  no_listener_throws c ->
  exists o,
    sentOptions (fetch4ChanBoard routes net options c) = [o]
    /\ method o = Some HttpMethods.GET
    /\ returnType o = Some ReturnMethods.BODY
    /\ RequestTypes.body o = None
    /\ (board options = None \/ board options = Some "" ->
          path o = Api.FOURCHAN routes)
    /\ (forall b, board options = Some b -> b <> "" ->
          thread options = None \/ thread options = Some "" ->
          path o = Api.FOURCHAN routes +:+ "/" +:+ b)
    /\ (forall b t, board options = Some b -> b <> "" ->
          thread options = Some t -> t <> "" ->
          path o = (Api.FOURCHAN routes +:+ "/" +:+ b) +:+ "/" +:+ t).
Proof.
  intros Hq. unfold fetch4ChanBoard. eexists.
  split; [apply sentOptions_request, Hq|].
  cbn [setContentType headers path method RequestTypes.body returnType].
  do 3 (split; [reflexivity|]). unfold fourChanPath.
  split; [by intros [-> | ->]|]. split.
  - intros b -> Hb [-> | ->]; by destruct b.
  - intros b t -> Hb -> Ht. destruct b; [done|]. by destruct t.
Qed.

Lemma fetch4ChanBoard_path_witness :
  exists o,
    sentOptions (fetch4ChanBoard SampleEndpoints.routes
                   (Sample.answering SampleEndpoints.json)
                   {| board := None; thread := Some "123" |} Sample.client) = [o]
    /\ path o = "/4chan".
Proof.
  destruct (fetch4ChanBoard_path SampleEndpoints.routes
              (Sample.answering SampleEndpoints.json)
              {| board := None; thread := Some "123" |} Sample.client
              (new_Client_no_listener _ _ _))
    as (o & Hsent & _ & _ & _ & Hpath & _).
  exists o. split; [exact Hsent|]. apply Hpath. by left.
Defined.

(** X15: [duckDuckGoImages] asks for safe results unless [safe] is
    given as [false]: the safety level sent is 1 when the option is
    missing or [true], and -2 exactly when it is [false]. *)
Theorem duckDuckGoImages_safe_by_default routes net query safe c :
  no_listener_throws c ->
  exists o level,
    sentOptions (duckDuckGoImages routes net query safe c) = [o]
    /\ method o = Some HttpMethods.POST
    /\ path o = Api.DUCKDUCKGOIMAGES routes
    /\ returnType o = Some ReturnMethods.JSON
    /\ RequestTypes.body o
       = Some (JObject [("args", JObject [("text", JString query);
                                          ("safetyLevel", JNumber level)])])
    /\ (level = -2 <-> safe = Some false)
    /\ (level = 1 <-> safe <> Some false).
Proof.
  intros Hq. unfold duckDuckGoImages. eexists. eexists.
  split; [apply sentOptions_request, Hq|].
  cbn [setContentType postOptions headers path method RequestTypes.body returnType].
  do 4 (split; [reflexivity|]).
  destruct safe as [[]|]; split; split; intros H; try done; congruence.
Qed.

Lemma duckDuckGoImages_safe_by_default_witness :
  exists o,
    sentOptions (duckDuckGoImages SampleEndpoints.routes
                   (Sample.answering SampleEndpoints.json) "cats" None
                   Sample.client) = [o]
    /\ RequestTypes.body o
       = Some (JObject [("args", JObject [("text", JString "cats");
                                          ("safetyLevel", JNumber 1)])]).
Proof.
  destruct (duckDuckGoImages_safe_by_default SampleEndpoints.routes
              (Sample.answering SampleEndpoints.json) "cats" None Sample.client
              (new_Client_no_listener _ _ _))
    as (o & level & Hsent & _ & _ & _ & Hbody & _ & Hone).
  exists o. split; [exact Hsent|].
  rewrite Hbody. replace level with 1; [reflexivity|].
  symmetry. apply Hone. discriminate.
Defined.

Lemma imageTypeOf_gif contentType :
  imageTypeOf contentType = ImageTypes.GIF <-> contentType = Some ContentTypes.GIF.
Proof.
  unfold imageTypeOf. destruct contentType as [ct|]; [|done].
  destruct (String.eqb_spec ct ContentTypes.PNG) as [->|_]; [done|].
  destruct (String.eqb_spec ct ContentTypes.GIF) as [->|Hne]; [done|].
  split; [done|congruence].
Qed.

(** X16: on a response with status 200 whose body can be read,
    [imageScript] resolves with what [res.body()] resolved to as image
    and with the format GIF exactly when the content type of the
    response is ["image/gif"] to the letter, PNG in every other case (a
    missing content type or one with a parameter included); when the
    body cannot be read it is rejected with the error of
    [res.body()].  On status 429 it is rejected with the
    [RatelimitError] of [request], and on any other status with its
    [FapiError], or with the error of [res.body()]. *)
Theorem imageScript_result (F : Type) (parseFloat : option string -> F)
    routes net script inject c res :
  no_listener_throws c ->
  (forall o, net o = Return res) ->
  let run := result (imageScript parseFloat routes net script inject c) in
  (statusCode res = 200 ->
     (forall d, res_body res = BodyResolves d ->
        exists r,
          run = Return r
          /\ image r = BodyValue d
          /\ (format r = ImageTypes.GIF
              <-> res_headers res !! ReturnHeaders.CONTENT_TYPE = Some "image/gif")
          /\ (format r = ImageTypes.PNG
              <-> res_headers res !! ReturnHeaders.CONTENT_TYPE <> Some "image/gif"))
     /\ (forall v, res_body res = BodyRejects v ->
           run = Throw (ThrownByTransport v)))
  /\ (statusCode res = 429 ->
        exists e, run = Throw (ThrownRatelimitError e))
  /\ (statusCode res <> 200 -> statusCode res <> 429 ->
        (forall d, res_body res = BodyResolves d ->
           exists e, run = Throw (ThrownFapiError e)
                     /\ err_statusCode e = statusCode res)
        /\ (forall v, res_body res = BodyRejects v ->
              run = Throw (ThrownByTransport v))).
Proof.
  intros Hq Hn run. subst run. unfold imageScript.
  match goal with |- context [request net ?o] => set (options := o) end.
  assert (Hbind : forall r,
    request net options c = r ->
    result (mbind (M := M)
              (fun res0 : ReturnValue =>
                 match res0 with
                 | BodyAndHeaders b h =>
                     mret {| image := b;
                             format := imageTypeOf (h !! ReturnHeaders.CONTENT_TYPE);
                             wallTime := parseFloat (h !! IMAGESCRIPT_WALLTIME);
                             cpuTime := parseFloat (h !! IMAGESCRIPT_CPUTIME);
                             memoryUsage := parseFloat (h !! IMAGESCRIPT_MEMORY) |}
                 | _ => throw (ThrownByTransport "TypeError")
                 end) (request net options) c)
    = match result r with
      | Return (BodyAndHeaders b h) =>
          Return {| image := b;
                    format := imageTypeOf (h !! ReturnHeaders.CONTENT_TYPE);
                    wallTime := parseFloat (h !! IMAGESCRIPT_WALLTIME);
                    cpuTime := parseFloat (h !! IMAGESCRIPT_CPUTIME);
                    memoryUsage := parseFloat (h !! IMAGESCRIPT_MEMORY) |}
      | Return _ => Throw (ThrownByTransport "TypeError")
      | Throw t => Throw t
      end).
  { intros r <-. unfold mbind, M_bind.
    destruct (result (request net options c)) as [[]|]; reflexivity. }
  split; [|split].
  - intros Hs.
    assert (H429 : statusCode res <> 429) by (rewrite Hs; discriminate).
    rewrite (Hbind _ (request_answered net options c res (Hq _ _) (Hn _) H429)).
    cbn [result]. rewrite Hq. unfold settles, withHeaders. rewrite Hs.
    cbn [Z.eqb Pos.eqb options returnType returnHeaders Js.truthy id].
    split.
    + intros d ->. eexists. split; [reflexivity|].
      cbn [image format]. split; [reflexivity|]. split; [apply imageTypeOf_gif|].
      pose proof (imageTypeOf_gif (res_headers res !! ReturnHeaders.CONTENT_TYPE)) as Hg.
      destruct (imageTypeOf (res_headers res !! ReturnHeaders.CONTENT_TYPE));
        split; intros H; try done.
      * intros Hc. by apply Hg in Hc.
      * exfalso. apply H. by apply Hg.
    + by intros v ->.
  - intros Hs.
    rewrite (Hbind _ (request_429 net options c res (Hq _ _) (Hn _) Hs)).
    cbn [result]. rewrite Hq. by eexists.
  - intros H200 H429.
    rewrite (Hbind _ (request_answered net options c res (Hq _ _) (Hn _) H429)).
    cbn [result]. rewrite Hq. unfold settles.
    destruct (Z.eqb_spec (statusCode res) 200) as [|_]; [done|].
    split; [intros d ->; by eexists|by intros v ->].
Qed.

Lemma imageScript_result_witness :
  exists r,
    result (imageScript (fun h => h) SampleEndpoints.routes
              (Sample.answering SampleEndpoints.gif) "return 1" None Sample.client)
    = Return r
    /\ format r = ImageTypes.GIF.
Proof.
  destruct (proj1 (proj1 (imageScript_result (option string) (fun h => h)
                     SampleEndpoints.routes (Sample.answering SampleEndpoints.gif)
                     "return 1" None Sample.client SampleEndpoints.gif
                     (new_Client_no_listener _ _ _) (fun _ => eq_refl)) eq_refl)
              (RawBody "GIF89a") eq_refl)
    as (r & Hr & _ & Hgif & _).
  exists r. split; [exact Hr|]. by apply Hgif.
Defined.

(** X17: on a response with status 200 the methods that ask for JSON
    ([getPaths], [duckDuckGoImages]) resolve to the parsed JSON when
    the body parses; when it does not, they resolve to [undefined] if
    [res.body()] can still be read and are rejected with its error if
    not.  They never resolve to the body. *)
Theorem json_methods_resolve routes net query safe c res :
  no_listener_throws c ->
  (forall o, net o = Return res) ->
  statusCode res = 200 ->
  let settled :=
    match res_json res, res_body res with
    | Some j, _ => Return (JsonResult j)
    | None, BodyResolves _ => Return Undefined
    | None, BodyRejects v => Throw (ThrownByTransport v)
    end in
  result (getPaths routes net c) = settled
  /\ result (duckDuckGoImages routes net query safe c) = settled
  /\ (forall d, settled <> Return (BodyValue d)).
Proof.
  intros Hq Hn Hs settled.
  assert (H429 : statusCode res <> 429) by (rewrite Hs; discriminate).
  unfold getPaths, duckDuckGoImages.
  split; [|split].
  - match goal with |- result (request net ?o c) = _ =>
      rewrite (request_answered net o c res (Hq _ _) (Hn _) H429)
    end.
    cbn [result]. rewrite Hq. unfold settles, withHeaders. rewrite Hs.
    subst settled. cbn [Z.eqb Pos.eqb returnType returnHeaders Js.truthy].
    by destruct (res_json res), (res_body res).
  - match goal with |- result (request net ?o c) = _ =>
      rewrite (request_answered net o c res (Hq _ _) (Hn _) H429)
    end.
    cbn [result]. rewrite Hq. unfold settles, withHeaders. rewrite Hs.
    subst settled.
    cbn [Z.eqb Pos.eqb postOptions returnType returnHeaders Js.truthy].
    by destruct (res_json res), (res_body res).
  - subst settled. intros d. by destruct (res_json res), (res_body res).
Qed.

Lemma json_methods_resolve_witness :
  result (getPaths SampleEndpoints.routes (Sample.answering SampleEndpoints.json)
            Sample.client)
  = Return (JsonResult (JArray [JNumber 1]))
  /\ result (getPaths SampleEndpoints.routes (Sample.answering Sample.notJson)
               Sample.client)
     = Return Undefined
  /\ result (getPaths SampleEndpoints.routes
               (Sample.answering SampleBodies.brokenJson) Sample.client)
     = Throw (ThrownByTransport "SyntaxError").
Proof.
  split; [|split].
  - exact (proj1 (json_methods_resolve SampleEndpoints.routes
                    (Sample.answering SampleEndpoints.json) "" None Sample.client
                    SampleEndpoints.json (new_Client_no_listener _ _ _)
                    (fun _ => eq_refl) eq_refl)).
  - exact (proj1 (json_methods_resolve SampleEndpoints.routes
                    (Sample.answering Sample.notJson) "" None Sample.client
                    Sample.notJson (new_Client_no_listener _ _ _)
                    (fun _ => eq_refl) eq_refl)).
  - exact (proj1 (json_methods_resolve SampleEndpoints.routes
                    (Sample.answering SampleBodies.brokenJson) "" None Sample.client
                    SampleBodies.brokenJson (new_Client_no_listener _ _ _)
                    (fun _ => eq_refl) eq_refl)).
Defined.

(** X18: after a call answered with status 429 whose reset header has a
    value, the rate-limit state of the client holds that value as it
    came, and the reset time of the error is what [parseInt] reads in
    the value the state holds (0 when it reads no number). *)
Theorem ratelimit_error_agrees_with_state net options c res v :
  no_listener_throws c ->
  net (setContentType options) = Return res ->
  statusCode res = 429 ->
  carries (res_headers res) ReturnHeaders.RATELIMIT_RESET v ->
  let c' := final (request net options c) in
  ratelimits c' !! ReturnHeaders.RATELIMIT_RESET = Some v
  /\ exists e,
       result (request net options c) = Throw (ThrownRatelimitError e)
       /\ ratelimitReset e
          = Js.nanToZero (Js.parseInt (ratelimits c' !! ReturnHeaders.RATELIMIT_RESET)).
Proof.
  intros Hq Hn Hs Hc. cbv zeta.
  rewrite (request_429 net options c res (Hq _ _) Hn Hs).
  cbn [final result ratelimits withRatelimitState ratelimitState].
  assert (Hin : ReturnHeaders.RATELIMIT_RESET ∈ ratelimitHeaders)
    by (unfold ratelimitHeaders; set_solver).
  rewrite (trackHeaders_carried _ _ _ v Hin Hc).
  split; [reflexivity|]. rewrite Hq. eexists. split; [reflexivity|].
  cbn [new_RatelimitError ratelimitReset]. by destruct Hc as [-> _].
Qed.

Lemma ratelimit_error_agrees_with_state_witness :
  ratelimits (final (request (Sample.answering Sample.ratelimited)
                       (Sample.getPaths None) Sample.client))
    !! ReturnHeaders.RATELIMIT_RESET = Some "17".
Proof.
  refine (proj1 (ratelimit_error_agrees_with_state
                   (Sample.answering Sample.ratelimited) (Sample.getPaths None)
                   Sample.client Sample.ratelimited "17"
                   (new_Client_no_listener _ _ _) eq_refl eq_refl _)).
  split; [reflexivity | discriminate].
Defined.
